(** * The per-core vcpu scheduler of core/vmm_scheduler.c

    A shallow embedding of the scheduler: the vcpu array of the manager,
    the scheduler control block [sched], and the five entry points
    ([vmm_scheduler_next], [vmm_scheduler_timer_event],
    [vmm_scheduler_irq_process], the preemption guard and
    [vmm_scheduler_init]).  Calls that leave the file (register switch,
    tick callback, timer and vcpu-irq services) are recorded, in order,
    in a log of calls carried by the machine state. *)

From Stdlib Require Import ZArith Lia.
From stdpp Require Import base tactics option list list_numbers.

Local Open Scope Z_scope.

(** ** Data model *)

(** The vcpu states.  The constants [VMM_VCPU_STATE_*] are declared in a
    header that is not part of the sources at hand; the scheduler compares
    a vcpu's state with them and tests it against the saveable mask. *)
Inductive vcpu_state : Set :=
  | VMM_VCPU_STATE_RESET
  | VMM_VCPU_STATE_READY
  | VMM_VCPU_STATE_RUNNING
  | VMM_VCPU_STATE_PAUSED
  | VMM_VCPU_STATE_HALTED.

#[global] Instance vcpu_state_eq_dec : EqDecision vcpu_state.
Proof. solve_decision. Defined.

(** Modelled from the spec: the mask [VMM_VCPU_STATE_SAVEABLE] is declared
    in a header that is not part of the sources at hand; the specification
    gives its members as Ready and Running.  The test
    [state & VMM_VCPU_STATE_SAVEABLE] becomes this predicate. *)
Definition VMM_VCPU_STATE_SAVEABLE (st : vcpu_state) : bool :=
  match st with
  | VMM_VCPU_STATE_READY | VMM_VCPU_STATE_RUNNING => true
  | _ => false
  end.

(** [vmm_vcpu_t], restricted to the fields the scheduler reads or writes.
    The tick counters are integers, as the specification describes them;
    [preempt_count] is an unsigned 32-bit counter, whose arithmetic wraps
    (see [u32_wrap]); the guest back-reference and the tick callback are
    opaque identifiers ([None] is the null pointer). *)
Record vmm_vcpu : Set := mk_vcpu {
  num : Z;
  guest : option nat;
  state : vcpu_state;
  preempt_count : Z;
  tick_count : Z;
  tick_pending : Z;
  tick_func : option nat
}.

(** [vmm_scheduler_ctrl_t]: the id of the current vcpu ([-1] for none),
    the timer event handle and the lock word. *)
Record vmm_scheduler_ctrl : Set := mk_sched {
  vcpu_current : Z;
  ev : option nat;
  lock : bool
}.

(** Calls into the collaborators, in the order they are made.  A vcpu
    pointer is the slot of the vcpu in the manager's array. *)
Inductive call : Set :=
  | vmm_vcpu_regs_switch (from to : option nat)
  | tick_func_call (f : nat) (pending : Z)
  | vmm_timer_event_restart
  | vmm_vcpu_irq_process
  | vmm_timer_event_create
  | vmm_timer_event_start (handle : nat) (nsecs : Z).

#[global] Instance call_eq_dec : EqDecision call.
Proof. solve_decision. Defined.

(** The machine state: the manager's vcpu array, the global [sched] and
    the log of calls made so far. *)
Record world : Set := mk_world {
  vcpus : list vmm_vcpu;
  sched : vmm_scheduler_ctrl;
  calls : list call
}.

(** Outcome of running a piece of code: a value, a loop that has not
    finished within the iterations allowed, or undefined behaviour (null
    dereference, division by zero). *)
Inductive result (A : Type) : Type :=
  | Ok (a : A)
  | OutOfFuel
  | Fault.
Arguments Ok {A} a.
Arguments OutOfFuel {A}.
Arguments Fault {A}.

#[global] Instance result_ret : MRet result := @Ok.
#[global] Instance result_bind : MBind result := λ A B f r,
  match r with
  | Ok a => f a
  | OutOfFuel => OutOfFuel
  | Fault => Fault
  end.

(** Arithmetic on an unsigned 32-bit field wraps around. *)
Definition u32_wrap (x : Z) : Z := x mod 2 ^ 32.

(** ** Field updates *)

Definition set_state (st : vcpu_state) (v : vmm_vcpu) : vmm_vcpu :=
  mk_vcpu (num v) (guest v) st (preempt_count v) (tick_count v)
          (tick_pending v) (tick_func v).

Definition set_preempt_count (n : Z) (v : vmm_vcpu) : vmm_vcpu :=
  mk_vcpu (num v) (guest v) (state v) n (tick_count v)
          (tick_pending v) (tick_func v).

Definition set_tick_pending (n : Z) (v : vmm_vcpu) : vmm_vcpu :=
  mk_vcpu (num v) (guest v) (state v) (preempt_count v) (tick_count v)
          n (tick_func v).

(** Assignment to a field through a vcpu pointer. *)
Definition store (p : nat) (f : vmm_vcpu → vmm_vcpu) (w : world) : world :=
  mk_world (alter f p (vcpus w)) (sched w) (calls w).

Definition set_vcpu_current (id : Z) (w : world) : world :=
  mk_world (vcpus w) (mk_sched id (ev (sched w)) (lock (sched w))) (calls w).

Definition emit (c : call) (w : world) : world :=
  mk_world (vcpus w) (sched w) (calls w ++ [c]).

(** ** The vcpu manager, as the scheduler uses it *)

Definition vmm_manager_vcpu_count (m : list vmm_vcpu) : Z :=
  Z.of_nat (length m).

(** Modelled from the spec: [vmm_manager_vcpu] lives in the manager, which
    is not part of the sources at hand; it resolves an id to the vcpu of
    that index, or to the null pointer when no such vcpu exists. *)
Definition vmm_manager_vcpu (m : list vmm_vcpu) (vcpu_no : Z) : option nat :=
  if bool_decide (0 ≤ vcpu_no < vmm_manager_vcpu_count m)
  then Some (Z.to_nat vcpu_no) else None.

(** Dereference of a vcpu pointer. *)
Definition deref (m : list vmm_vcpu) (p : option nat) : result vmm_vcpu :=
  match p with
  | Some i => match m !! i with Some v => Ok v | None => Fault end
  | None => Fault
  end.

(** ** vmm_scheduler_next *)

(** The search loop of lines 45-50; [fuel] bounds the number of times the
    loop body runs. *)
Fixpoint scheduler_next_loop (fuel : nat) (m : list vmm_vcpu)
    (current next : Z) {struct fuel} : result Z :=
  match deref m (vmm_manager_vcpu m next) with
  | Ok nxt_vcpu =>
      if bool_decide (state nxt_vcpu ≠ VMM_VCPU_STATE_READY)
         && bool_decide (next ≠ current)
      then match fuel with
           | O => OutOfFuel
           | S fuel' =>
               scheduler_next_loop fuel' m current
                 (Z.rem (next + 1) (vmm_manager_vcpu_count m))
           end
      else Ok next
  | OutOfFuel => OutOfFuel
  | Fault => Fault
  end.

(** Lines 39-50: the id the search settles on. *)
Definition scheduler_next_pick (fuel : nat) (w : world) : result Z :=
  let cur_vcpu := vmm_manager_vcpu (vcpus w) (vcpu_current (sched w)) in
  next ← match cur_vcpu with
         | Some _ => c ← deref (vcpus w) cur_vcpu; Ok (num c)
         | None => Ok (-1)
         end;
  if bool_decide (vmm_manager_vcpu_count (vcpus w) = 0) then Fault
  else scheduler_next_loop fuel (vcpus w) (vcpu_current (sched w))
         (Z.rem (next + 1) (vmm_manager_vcpu_count (vcpus w))).

(** Lines 52-62: the context switch between current and next. *)
Definition scheduler_next_switch (cur_vcpu nxt_vcpu : option nat)
    (w : world) : result world :=
  match cur_vcpu with
  | None => Ok (emit (vmm_vcpu_regs_switch None nxt_vcpu) w)
  | Some c =>
      cur ← deref (vcpus w) cur_vcpu;
      nxt ← deref (vcpus w) nxt_vcpu;
      if bool_decide (num cur ≠ num nxt) then
        if VMM_VCPU_STATE_SAVEABLE (state cur) then
          let w1 :=
            if bool_decide (state cur = VMM_VCPU_STATE_RUNNING)
            then store c (set_state VMM_VCPU_STATE_READY) w else w in
          Ok (emit (vmm_vcpu_regs_switch cur_vcpu nxt_vcpu) w1)
        else Ok (emit (vmm_vcpu_regs_switch None nxt_vcpu) w)
      else Ok w
  end.

(** Lines 64-68: the bookkeeping on the vcpu switched to. *)
Definition scheduler_next_commit (nxt_vcpu : option nat) (w : world)
    : result world :=
  match nxt_vcpu with
  | Some n =>
      nxt ← deref (vcpus w) nxt_vcpu;
      let w1 := store n (set_tick_pending (tick_count nxt)) w in
      let w2 := store n (set_state VMM_VCPU_STATE_RUNNING) w1 in
      nxt' ← deref (vcpus w2) nxt_vcpu;
      Ok (set_vcpu_current (num nxt') w2)
  | None => Ok w
  end.

Definition vmm_scheduler_next (fuel : nat) (w : world) : result world :=
  let cur_vcpu := vmm_manager_vcpu (vcpus w) (vcpu_current (sched w)) in
  next ← scheduler_next_pick fuel w;
  let nxt_vcpu := vmm_manager_vcpu (vcpus w) next in
  w1 ← scheduler_next_switch cur_vcpu nxt_vcpu w;
  scheduler_next_commit nxt_vcpu w1.

(** ** vmm_scheduler_timer_event *)

Definition vmm_scheduler_timer_event (fuel : nat) (w : world) : result world :=
  let vcpu := vmm_manager_vcpu (vcpus w) (vcpu_current (sched w)) in
  w1 ← match vcpu with
       | Some p =>
           v ← deref (vcpus w) vcpu;
           if bool_decide (preempt_count v = 0) then
             if bool_decide (tick_pending v = 0) then
               vmm_scheduler_next fuel w
             else
               let w1 := store p (set_tick_pending (tick_pending v - 1)) w in
               v1 ← deref (vcpus w1) vcpu;
               match tick_func v1 with
               | Some f =>
                   if bool_decide (preempt_count v1 = 0)
                   then Ok (emit (tick_func_call f (tick_pending v1)) w1)
                   else Ok w1
               | None => Ok w1
               end
           else Ok w
       | None => vmm_scheduler_next fuel w
       end;
  Ok (emit vmm_timer_event_restart w1).

(** ** vmm_scheduler_irq_process *)

Definition vmm_scheduler_irq_process (fuel : nat) (w : world) : result world :=
  let vcpu := vmm_manager_vcpu (vcpus w) (vcpu_current (sched w)) in
  match vcpu with
  | None => Ok w
  | Some _ =>
      v ← deref (vcpus w) vcpu;
      if bool_decide (state v ≠ VMM_VCPU_STATE_RUNNING)
      then vmm_scheduler_next fuel w
      else Ok (emit vmm_vcpu_irq_process w)
  end.

(** ** Accessors and the preemption guard *)

(** The lock is taken and released around the read, with local interrupts
    masked: in this sequential model the accessor is a read of [sched]. *)
Definition vmm_scheduler_current_vcpu (w : world) : option nat :=
  if bool_decide (vcpu_current (sched w) ≠ -1)
  then vmm_manager_vcpu (vcpus w) (vcpu_current (sched w))
  else None.

Definition vmm_scheduler_current_guest (w : world) : result (option nat) :=
  match vmm_scheduler_current_vcpu w with
  | Some p => v ← deref (vcpus w) (Some p); Ok (guest v)
  | None => Ok None
  end.

Definition vmm_scheduler_preempt_disable (w : world) : result world :=
  match vmm_scheduler_current_vcpu w with
  | Some p =>
      v ← deref (vcpus w) (Some p);
      Ok (store p (set_preempt_count (u32_wrap (preempt_count v + 1))) w)
  | None => Ok w
  end.

Definition vmm_scheduler_preempt_enable (w : world) : result world :=
  match vmm_scheduler_current_vcpu w with
  | Some p =>
      v ← deref (vcpus w) (Some p);
      if bool_decide (preempt_count v ≠ 0)
      then Ok (store p (set_preempt_count (u32_wrap (preempt_count v - 1))) w)
      else Ok w
  | None => Ok w
  end.

(** ** vmm_scheduler_init *)

Inductive vmm_error : Set := VMM_OK | VMM_EFAIL.

(** [created] is what [vmm_timer_event_create] answers (the null pointer
    when the event cannot be allocated) and [tick_nsecs] what
    [vmm_timer_tick_nsecs] answers. *)
Definition vmm_scheduler_init (created : option nat) (tick_nsecs : Z)
    (w : world) : vmm_error * world :=
  let w1 := mk_world (vcpus w) (mk_sched 0 None false) (calls w) in
  let w2 := set_vcpu_current (-1) w1 in
  let w3 := emit vmm_timer_event_create w2 in
  let w4 := mk_world (vcpus w3)
              (mk_sched (vcpu_current (sched w3)) created (lock (sched w3)))
              (calls w3) in
  match ev (sched w4) with
  | None => (VMM_EFAIL, w4)
  | Some h => (VMM_OK, emit (vmm_timer_event_start h tick_nsecs) w4)
  end.

(** ** Well-formed machine states *)

(** Every vcpu carries its own index as [num], and [sched.vcpu_current]
    is the "none" value or the id of a vcpu. *)
Definition world_ok (w : world) : bool :=
  bool_decide (num <$> vcpus w = seqZ 0 (vmm_manager_vcpu_count (vcpus w)))
  && bool_decide (vcpu_current (sched w) = -1
                  ∨ 0 ≤ vcpu_current (sched w) < vmm_manager_vcpu_count (vcpus w)).

(** The vcpu of id [i] is in state Ready. *)
Definition is_ready (m : list vmm_vcpu) (i : Z) : bool :=
  match deref m (vmm_manager_vcpu m i) with
  | Ok v => bool_decide (state v = VMM_VCPU_STATE_READY)
  | _ => false
  end.

(** The condition under which the search loop stops at candidate [i]. *)
Definition search_stops (m : list vmm_vcpu) (current i : Z) : bool :=
  is_ready m i || bool_decide (i = current).

(** The vcpus that take part in the rotation: those in state Ready, and
    the current one while it is Running. *)
Definition is_runnable (w : world) (i : Z) : bool :=
  match deref (vcpus w) (vmm_manager_vcpu (vcpus w) i) with
  | Ok v => bool_decide (state v = VMM_VCPU_STATE_READY)
            || (bool_decide (i = vcpu_current (sched w))
                && bool_decide (state v = VMM_VCPU_STATE_RUNNING))
  | _ => false
  end.

Definition runnable_ids (w : world) : list Z :=
  filter (λ i, is_runnable w i = true)
         (seqZ 0 (vmm_manager_vcpu_count (vcpus w))).

(** [n] dispatches in a row, with the ids selected, in order. *)
Fixpoint dispatch_n (fuel n : nat) (w : world) : result (list Z * world) :=
  match n with
  | O => Ok ([], w)
  | S n' =>
      w1 ← vmm_scheduler_next fuel w;
      r ← dispatch_n fuel n' w1;
      Ok (vcpu_current (sched w1) :: r.1, r.2)
  end.

(** [n] timer ticks in a row. *)
Fixpoint ticks (fuel n : nat) (w : world) : result world :=
  match n with
  | O => Ok w
  | S n' => w1 ← vmm_scheduler_timer_event fuel w; ticks fuel n' w1
  end.

(** Calls of the preemption guard. *)
Inductive guard_op : Set := Disable | Enable.

Definition run_guard_op (o : guard_op) (w : world) : result world :=
  match o with
  | Disable => vmm_scheduler_preempt_disable w
  | Enable => vmm_scheduler_preempt_enable w
  end.

Fixpoint run_guard_ops (os : list guard_op) (w : world) : result world :=
  match os with
  | [] => Ok w
  | o :: os' => w1 ← run_guard_op o w; run_guard_ops os' w1
  end.

(** ** Example machine states *)

Definition vcpu_A : vmm_vcpu :=
  mk_vcpu 0 (Some 0%nat) VMM_VCPU_STATE_RUNNING 0 1 1 (Some 7%nat).
Definition vcpu_B : vmm_vcpu :=
  mk_vcpu 1 (Some 0%nat) VMM_VCPU_STATE_READY 0 1 0 None.
Definition vcpu_C : vmm_vcpu :=
  mk_vcpu 2 (Some 1%nat) VMM_VCPU_STATE_READY 0 1 0 None.

(** Three vcpus with a quantum of one tick each; A is running. *)
Definition world_ABC : world :=
  mk_world [vcpu_A; vcpu_B; vcpu_C] (mk_sched 0 (Some 0%nat) false) [].

(** Freshly initialised scheduler, one vcpu that has not been started. *)
Definition world_boot : world :=
  mk_world [mk_vcpu 0 (Some 0%nat) VMM_VCPU_STATE_RESET 0 1 0 None]
           (mk_sched (-1) (Some 0%nat) false) [].

(** The current vcpu is paused and nothing else is ready. *)
Definition world_paused : world :=
  mk_world [mk_vcpu 0 (Some 0%nat) VMM_VCPU_STATE_HALTED 0 3 0 None;
            mk_vcpu 1 (Some 0%nat) VMM_VCPU_STATE_PAUSED 0 5 2 None]
           (mk_sched 1 (Some 0%nat) false) [].

(** The current vcpu is inside a preemption-disabled section. *)
Definition world_guarded : world :=
  mk_world [mk_vcpu 0 (Some 0%nat) VMM_VCPU_STATE_RUNNING 2 4 0 (Some 7%nat);
            mk_vcpu 1 (Some 0%nat) VMM_VCPU_STATE_READY 0 4 0 None]
           (mk_sched 0 (Some 0%nat) false) [].

(** Before initialisation: nothing is running, the second and third
    vcpu are ready, and [sched] holds whatever was in memory. *)
Definition world_cold : world :=
  mk_world [mk_vcpu 0 None VMM_VCPU_STATE_RESET 0 3 0 None;
            mk_vcpu 1 None VMM_VCPU_STATE_READY 0 5 0 None;
            mk_vcpu 2 None VMM_VCPU_STATE_READY 0 5 0 None]
           (mk_sched 0 None false) [].

(** ** Descriptions used in the statements *)

(** The vcpu left in slot [i] by a dispatch that settles on [nxt] while
    [current] is the current id. *)
Definition dispatched (current nxt : Z) (i : nat) (v : vmm_vcpu) : vmm_vcpu :=
  if bool_decide (Z.of_nat i = nxt)
  then set_state VMM_VCPU_STATE_RUNNING (set_tick_pending (tick_count v) v)
  else if bool_decide (Z.of_nat i = current)
          && bool_decide (state v = VMM_VCPU_STATE_RUNNING)
       then set_state VMM_VCPU_STATE_READY v
       else v.

(** The register switches a dispatch that settles on [nxt] asks for. *)
Definition switch_calls (w : world) (nxt : Z) : list call :=
  match vmm_manager_vcpu (vcpus w) (vcpu_current (sched w)) with
  | None => [vmm_vcpu_regs_switch None (Some (Z.to_nat nxt))]
  | Some c =>
      if bool_decide (vcpu_current (sched w) = nxt) then []
      else match vcpus w !! c with
           | Some v =>
               if VMM_VCPU_STATE_SAVEABLE (state v)
               then [vmm_vcpu_regs_switch (Some c) (Some (Z.to_nat nxt))]
               else [vmm_vcpu_regs_switch None (Some (Z.to_nat nxt))]
           | None => []
           end
  end.

(** [w'] is [w] after a dispatch that settled on [nxt]. *)
Definition dispatch_result (w : world) (nxt : Z) (w' : world) : Prop :=
  sched w' = mk_sched nxt (ev (sched w)) (lock (sched w))
  ∧ calls w' = calls w ++ switch_calls w nxt
  ∧ length (vcpus w') = length (vcpus w)
  ∧ ∀ (i : nat) v, vcpus w !! i = Some v →
      vcpus w' !! i = Some (dispatched (vcpu_current (sched w)) nxt i v).

(** [len] consecutive candidates, starting from [b] reduced modulo [n]. *)
Fixpoint probes (n b : Z) (len : nat) : list Z :=
  match len with
  | O => []
  | S len' => b mod n :: probes n (b + 1) len'
  end.

(** [w] has [n] vcpus and its rotation is the set [runnable]. *)
Definition rotation_state (n : Z) (runnable : Z → bool) (w : world) : Prop :=
  world_ok w = true
  ∧ vmm_manager_vcpu_count (vcpus w) = n
  ∧ ∀ i, is_runnable w i = runnable i.

(** Following the specification: the index at which probing starts, one
    past the current vcpu modulo the vcpu count, or 0 without a current
    vcpu. *)
Definition search_start (w : world) : Z :=
  match vmm_manager_vcpu (vcpus w) (vcpu_current (sched w)) with
  | Some _ => (vcpu_current (sched w) + 1) mod vmm_manager_vcpu_count (vcpus w)
  | None => 0
  end.

(** The call is a register switch. *)
Definition is_regs_switch (c : call) : bool :=
  match c with vmm_vcpu_regs_switch _ _ => true | _ => false end.

(** Every vcpu has a [preempt_count] that is not negative. *)
Definition preempt_counts_ok (w : world) : Prop :=
  Forall (λ v, 0 ≤ preempt_count v) (vcpus w).

(** Only the current vcpu may be in state Running. *)
Definition running_ok (w : world) : Prop :=
  ∀ (i : nat) v, vcpus w !! i = Some v →
    state v = VMM_VCPU_STATE_RUNNING → Z.of_nat i = vcpu_current (sched w).

(** The entry points that run once the scheduler is set up. *)
Inductive entry : Set :=
  | timer_tick
  | irq_entry
  | preempt_disable
  | preempt_enable.

Definition run_entry (fuel : nat) (e : entry) (w : world) : result world :=
  match e with
  | timer_tick => vmm_scheduler_timer_event fuel w
  | irq_entry => vmm_scheduler_irq_process fuel w
  | preempt_disable => vmm_scheduler_preempt_disable w
  | preempt_enable => vmm_scheduler_preempt_enable w
  end.

Fixpoint run_entries (fuel : nat) (es : list entry) (w : world)
    : result world :=
  match es with
  | [] => Ok w
  | e :: es' => w1 ← run_entry fuel e w; run_entries fuel es' w1
  end.

(** What one tick that finds [j + 1] ticks pending asks of the
    collaborators: the tick callback, when there is one, with [j], then
    the re-arming of the timer. *)
Definition tick_calls (f : option nat) (j : Z) : list call :=
  match f with
  | Some f => [tick_func_call f j; vmm_timer_event_restart]
  | None => [vmm_timer_event_restart]
  end.

(** The properties every entry point keeps: the state is well formed,
    only the current vcpu may be Running, and no [preempt_count] is
    negative. *)
Definition sched_inv (w : world) : Prop :=
  world_ok w = true ∧ running_ok w ∧ preempt_counts_ok w.

(** ** Facts about the manager's array *)

Section registry.
Variable m : list vmm_vcpu.
Local Abbreviation N := (vmm_manager_vcpu_count m).

Lemma manager_vcpu_in_range i :
  0 ≤ i < N → vmm_manager_vcpu m i = Some (Z.to_nat i).
Proof. intros Hi. unfold vmm_manager_vcpu. by rewrite bool_decide_eq_true_2. Qed.

Lemma manager_vcpu_out_of_range i :
  ¬ (0 ≤ i < N) → vmm_manager_vcpu m i = None.
Proof. intros Hi. unfold vmm_manager_vcpu. by rewrite bool_decide_eq_false_2. Qed.

Lemma deref_in_range i :
  0 ≤ i < N →
  ∃ v, m !! Z.to_nat i = Some v ∧ deref m (vmm_manager_vcpu m i) = Ok v.
Proof.
  intros Hi. rewrite manager_vcpu_in_range by done.
  destruct (lookup_lt_is_Some_2 m (Z.to_nat i)) as [v Hv].
  { unfold vmm_manager_vcpu_count in Hi. lia. }
  exists v. simpl. by rewrite Hv.
Qed.

Lemma deref_slot (p : nat) v : m !! p = Some v → deref m (Some p) = Ok v.
Proof. intros Hv. simpl. by rewrite Hv. Qed.

Lemma mod_in_range a : 0 < N → 0 ≤ a mod N < N.
Proof. intros. by apply Z.mod_pos_bound. Qed.

Lemma rem_succ_mod a : 0 < N → Z.rem (a mod N + 1) N = (a + 1) mod N.
Proof.
  intros HN. pose proof (mod_in_range a HN).
  rewrite Z.rem_mod_nonneg by lia. by rewrite Z.add_mod_idemp_l by lia.
Qed.

(** One turn of the search loop, for a candidate that names a vcpu. *)
Lemma scheduler_next_loop_unfold fuel current next :
  0 ≤ next < N →
  scheduler_next_loop fuel m current next =
    if search_stops m current next then Ok next
    else match fuel with
         | O => OutOfFuel
         | S fuel' => scheduler_next_loop fuel' m current (Z.rem (next + 1) N)
         end.
Proof.
  intros Hn. destruct (deref_in_range next Hn) as (v & _ & Hd).
  unfold search_stops, is_ready.
  destruct fuel; simpl; rewrite Hd;
    repeat case_bool_decide; simpl; try done; naive_solver.
Qed.

(** The loop walks [start], [start + 1], ... modulo the vcpu count and
    returns the first candidate at which the search stops. *)
Lemma scheduler_next_loop_finds current (d : nat) : ∀ start (fuel : nat),
  0 < N →
  (∀ i, 0 ≤ i < Z.of_nat d →
        search_stops m current ((start + i) mod N) = false) →
  search_stops m current ((start + Z.of_nat d) mod N) = true →
  (d ≤ fuel)%nat →
  scheduler_next_loop fuel m current (start mod N)
  = Ok ((start + Z.of_nat d) mod N).
Proof.
  induction d as [|d IH]; intros start fuel HN Hno Hyes Hfuel.
  - rewrite scheduler_next_loop_unfold by by apply mod_in_range.
    replace (start + Z.of_nat 0) with start in * by lia. by rewrite Hyes.
  - rewrite scheduler_next_loop_unfold by by apply mod_in_range.
    specialize (Hno 0) as H0. rewrite Z.add_0_r in H0. rewrite H0 by lia.
    destruct fuel as [|fuel]; [lia|].
    rewrite rem_succ_mod by done.
    replace (start + Z.of_nat (S d)) with (start + 1 + Z.of_nat d) in * by lia.
    apply IH; [done| |done|lia].
    intros i Hi. replace (start + 1 + i) with (start + (i + 1)) by lia.
    apply Hno. lia.
Qed.

(** When the search stops nowhere, the loop never leaves. *)
Lemma scheduler_next_loop_spins current :
  0 < N →
  (∀ i, 0 ≤ i < N → search_stops m current i = false) →
  ∀ fuel next, 0 ≤ next < N →
    scheduler_next_loop fuel m current next = OutOfFuel.
Proof.
  intros HN Hno. induction fuel as [|fuel IH]; intros next Hn;
    rewrite scheduler_next_loop_unfold by done; rewrite Hno by done; [done|].
  apply IH. rewrite Z.rem_mod_nonneg by lia. by apply Z.mod_pos_bound.
Qed.

(** More iterations allowed never change an answer. *)
Lemma scheduler_next_loop_mono current fuel : ∀ fuel' next r,
  scheduler_next_loop fuel m current next = Ok r →
  (fuel ≤ fuel')%nat →
  scheduler_next_loop fuel' m current next = Ok r.
Proof.
  induction fuel as [|fuel IH]; intros fuel' next r Hr Hle.
  - destruct fuel'; simpl in *; destruct (deref m _); try done;
      destruct (_ && _); done.
  - destruct fuel' as [|fuel']; [lia|]. simpl in *.
    destruct (deref m _); try done. destruct (_ && _); [|done].
    apply IH; [done|lia].
Qed.
End registry.

(** ** Facts about well-formed machine states *)

Lemma world_ok_num w (i : nat) v :
  world_ok w = true → vcpus w !! i = Some v → num v = Z.of_nat i.
Proof.
  unfold world_ok. rewrite andb_true_iff, !bool_decide_eq_true.
  intros [Hnum _] Hv.
  assert ((num <$> vcpus w) !! i = Some (num v)) as Hl
    by by rewrite list_lookup_fmap, Hv.
  rewrite Hnum in Hl. apply lookup_seqZ in Hl. lia.
Qed.

Lemma world_ok_current w :
  world_ok w = true →
  vcpu_current (sched w) = -1
  ∨ 0 ≤ vcpu_current (sched w) < vmm_manager_vcpu_count (vcpus w).
Proof.
  unfold world_ok. rewrite andb_true_iff, !bool_decide_eq_true. tauto.
Qed.

Lemma world_ok_intro w :
  (∀ (i : nat) v, vcpus w !! i = Some v → num v = Z.of_nat i) →
  (vcpu_current (sched w) = -1
   ∨ 0 ≤ vcpu_current (sched w) < vmm_manager_vcpu_count (vcpus w)) →
  world_ok w = true.
Proof.
  intros Hnum Hcur. unfold world_ok.
  rewrite andb_true_iff, !bool_decide_eq_true. split; [|done].
  apply list_eq. intros i. rewrite list_lookup_fmap.
  destruct (vcpus w !! i) as [v|] eqn:Hv; simpl.
  - symmetry. apply lookup_seqZ. rewrite (Hnum _ _ Hv).
    apply lookup_lt_Some in Hv. unfold vmm_manager_vcpu_count. lia.
  - symmetry. apply lookup_seqZ_ge. apply lookup_ge_None in Hv.
    unfold vmm_manager_vcpu_count. lia.
Qed.

(** The search starts one past the current vcpu (at 0 when there is
    none) and settles on the first candidate at which it stops. *)
Lemma scheduler_next_pick_finds w (d fuel : nat) :
  world_ok w = true →
  0 < vmm_manager_vcpu_count (vcpus w) →
  (∀ i, 0 ≤ i < Z.of_nat d →
     search_stops (vcpus w) (vcpu_current (sched w))
       ((vcpu_current (sched w) + 1 + i) mod vmm_manager_vcpu_count (vcpus w))
     = false) →
  search_stops (vcpus w) (vcpu_current (sched w))
    ((vcpu_current (sched w) + 1 + Z.of_nat d)
       mod vmm_manager_vcpu_count (vcpus w)) = true →
  (d ≤ fuel)%nat →
  scheduler_next_pick fuel w
  = Ok ((vcpu_current (sched w) + 1 + Z.of_nat d)
          mod vmm_manager_vcpu_count (vcpus w)).
Proof.
  intros Hok HN Hno Hyes Hfuel. unfold scheduler_next_pick.
  assert (∀ x, x = vcpu_current (sched w) →
    (if bool_decide (vmm_manager_vcpu_count (vcpus w) = 0) then Fault
     else scheduler_next_loop fuel (vcpus w) (vcpu_current (sched w))
            (Z.rem (x + 1) (vmm_manager_vcpu_count (vcpus w))))
    = Ok ((vcpu_current (sched w) + 1 + Z.of_nat d)
            mod vmm_manager_vcpu_count (vcpus w))) as Hgo.
  { intros x ->. rewrite bool_decide_eq_false_2 by lia.
    pose proof (world_ok_current w Hok).
    rewrite Z.rem_mod_nonneg by lia.
    by apply scheduler_next_loop_finds. }
  destruct (world_ok_current w Hok) as [Hc|Hc].
  - rewrite manager_vcpu_out_of_range by lia. simpl. apply Hgo. lia.
  - destruct (deref_in_range _ _ Hc) as (v & Hv & Hd).
    rewrite manager_vcpu_in_range by done.
    rewrite manager_vcpu_in_range in Hd by done. rewrite Hd. simpl.
    apply Hgo. rewrite (world_ok_num _ _ _ Hok Hv). lia.
Qed.

(** ** The effect of one dispatch *)

#[local] Arguments scheduler_next_commit : simpl never.

Lemma scheduler_next_commit_effect (n : nat) vn w :
  vcpus w !! n = Some vn →
  scheduler_next_commit (Some n) w
  = Ok (set_vcpu_current (num vn)
          (store n (set_state VMM_VCPU_STATE_RUNNING)
             (store n (set_tick_pending (tick_count vn)) w))).
Proof.
  intros Hv. unfold scheduler_next_commit. simpl. rewrite Hv. simpl.
  rewrite !list_lookup_alter_eq, Hv. done.
Qed.

Lemma dispatched_lookup (m l : list vmm_vcpu) current nxt vn :
  0 ≤ nxt →
  m !! Z.to_nat nxt = Some vn →
  l !! Z.to_nat nxt = Some vn →
  (∀ (i : nat) v, i ≠ Z.to_nat nxt → m !! i = Some v →
     l !! i = Some (if bool_decide (Z.of_nat i = current)
                       && bool_decide (state v = VMM_VCPU_STATE_RUNNING)
                    then set_state VMM_VCPU_STATE_READY v else v)) →
  ∀ (i : nat) v, m !! i = Some v →
    alter (set_state VMM_VCPU_STATE_RUNNING) (Z.to_nat nxt)
      (alter (set_tick_pending (tick_count vn)) (Z.to_nat nxt) l) !! i
    = Some (dispatched current nxt i v).
Proof.
  intros Hn Hm Hl Hrest i v Hv. unfold dispatched.
  destruct (decide (i = Z.to_nat nxt)) as [->|Hi].
  - rewrite bool_decide_eq_true_2 by lia.
    rewrite !list_lookup_alter_eq, Hl. by simplify_eq.
  - rewrite bool_decide_eq_false_2 by lia.
    rewrite !list_lookup_alter_ne by done. by apply Hrest.
Qed.

Lemma vmm_scheduler_next_effect fuel w nxt :
  world_ok w = true →
  0 ≤ nxt < vmm_manager_vcpu_count (vcpus w) →
  scheduler_next_pick fuel w = Ok nxt →
  ∃ w', vmm_scheduler_next fuel w = Ok w'
    ∧ sched w' = mk_sched nxt (ev (sched w)) (lock (sched w))
    ∧ calls w' = calls w ++ switch_calls w nxt
    ∧ length (vcpus w') = length (vcpus w)
    ∧ ∀ (i : nat) v, vcpus w !! i = Some v →
        vcpus w' !! i = Some (dispatched (vcpu_current (sched w)) nxt i v).
Proof.
  intros Hok Hn Hpick. unfold vmm_scheduler_next. rewrite Hpick. simpl.
  destruct (deref_in_range _ _ Hn) as (vn & Hvn & _).
  pose proof (world_ok_num _ _ _ Hok Hvn) as Hnum.
  rewrite (manager_vcpu_in_range _ nxt) by done.
  unfold switch_calls.
  destruct (world_ok_current w Hok) as [Hc|Hc].
  - (* no current vcpu: cold switch *)
    rewrite manager_vcpu_out_of_range by lia. simpl.
    erewrite scheduler_next_commit_effect by exact Hvn.
    eexists. split; [done|]. simpl. rewrite Hnum, Z2Nat.id by lia.
    repeat split; [by rewrite !length_alter|].
    apply dispatched_lookup; [lia|done|done|].
    intros i v Hi Hv. rewrite bool_decide_eq_false_2 by lia. by rewrite Hv.
  - destruct (deref_in_range _ _ Hc) as (vc & Hvc & _).
    pose proof (world_ok_num _ _ _ Hok Hvc) as Hnumc.
    rewrite (manager_vcpu_in_range _ (vcpu_current _)) by done.
    simpl. rewrite Hvc, Hvn. simpl. rewrite Hnumc, Hnum, !Z2Nat.id by lia.
    case_bool_decide as Hne.
    + (* the search settled on another vcpu *)
      rewrite (bool_decide_eq_false_2 (_ = nxt)) by done.
      assert (Z.to_nat (vcpu_current (sched w)) ≠ Z.to_nat nxt) as Hslot by lia.
      destruct (VMM_VCPU_STATE_SAVEABLE (state vc)) eqn:Hsave.
      * case_bool_decide as Hrun.
        -- simpl. erewrite scheduler_next_commit_effect
             by (simpl; rewrite list_lookup_alter_ne by done; exact Hvn).
           eexists. split; [done|]. simpl. rewrite Hnum, Z2Nat.id by lia.
           repeat split; [by rewrite !length_alter|].
           apply dispatched_lookup;
             [lia|done|by rewrite list_lookup_alter_ne|].
           intros i v Hi Hv.
           destruct (decide (i = Z.to_nat (vcpu_current (sched w)))) as [->|Hic].
           ++ rewrite list_lookup_alter_eq, Hv. simplify_eq. simpl.
              by rewrite !bool_decide_eq_true_2 by (done || lia).
           ++ rewrite list_lookup_alter_ne, Hv by done.
              by rewrite bool_decide_eq_false_2 by lia.
        -- simpl. erewrite scheduler_next_commit_effect by (simpl; exact Hvn).
           eexists. split; [done|]. simpl. rewrite Hnum, Z2Nat.id by lia.
           repeat split; [by rewrite !length_alter|].
           apply dispatched_lookup; [lia|done|done|].
           intros i v Hi Hv. rewrite Hv.
           destruct (decide (i = Z.to_nat (vcpu_current (sched w)))) as [->|Hic].
           ++ simplify_eq.
              by rewrite (bool_decide_eq_false_2 (state _ = _)), andb_false_r.
           ++ by rewrite bool_decide_eq_false_2 by lia.
      * simpl. erewrite scheduler_next_commit_effect by (simpl; exact Hvn).
        eexists. split; [done|]. simpl. rewrite Hnum, Z2Nat.id by lia.
        repeat split; [by rewrite !length_alter|].
        apply dispatched_lookup; [lia|done|done|].
        intros i v Hi Hv. rewrite Hv.
        destruct (decide (i = Z.to_nat (vcpu_current (sched w)))) as [->|Hic].
        ++ simplify_eq.
           rewrite (bool_decide_eq_false_2 (state _ = _)), andb_false_r; [done|].
           intros Hrun. by rewrite Hrun in Hsave.
        ++ by rewrite bool_decide_eq_false_2 by lia.
    + (* the search came back to the current vcpu: no switch *)
      rewrite (bool_decide_eq_true_2 (_ = nxt)) by done.
      simpl. erewrite scheduler_next_commit_effect by exact Hvn.
      eexists. split; [done|]. simpl. rewrite Hnum, Z2Nat.id by lia.
      repeat split; [by rewrite app_nil_r|by rewrite !length_alter|].
      apply dispatched_lookup; [lia|done|done|].
      intros i v Hi Hv. rewrite Hv. by rewrite bool_decide_eq_false_2 by lia.
Qed.

(** ** Arithmetic of the wrap-around index *)

Lemma mod_add_inj n x i j :
  0 < n → (x + i) mod n = (x + j) mod n → - n < i - j < n → i = j.
Proof.
  intros Hn Heq Hij.
  pose proof (Z.div_mod (x + i) n ltac:(lia)) as Hi.
  pose proof (Z.div_mod (x + j) n ltac:(lia)) as Hj.
  rewrite Heq in Hi.
  assert (i - j = n * ((x + i) `div` n - (x + j) `div` n)) as Hk by lia.
  assert ((x + i) `div` n - (x + j) `div` n = 0) by nia. lia.
Qed.

Lemma mod_shift n a b i :
  0 < n → a mod n = b mod n → (a + i) mod n = (b + i) mod n.
Proof.
  intros Hn Hab.
  rewrite <-(Z.add_mod_idemp_l a), <-(Z.add_mod_idemp_l b) by lia.
  by rewrite Hab.
Qed.

Lemma mod_reach n c i :
  0 < n → 0 ≤ i < n → (c + 1 + (i - c - 1) mod n) mod n = i.
Proof.
  intros Hn Hi. rewrite Z.add_mod_idemp_r by lia.
  replace (c + 1 + (i - c - 1)) with i by lia. by apply Z.mod_small.
Qed.

(** The first place at which a test succeeds, below a place at which it
    does. *)
Lemma first_hit (d : nat) : ∀ P : Z → bool,
  P (Z.of_nat d) = true →
  ∃ d' : nat, (d' ≤ d)%nat ∧ P (Z.of_nat d') = true
    ∧ ∀ i, 0 ≤ i < Z.of_nat d' → P i = false.
Proof.
  induction d as [|d IH]; intros P Hd.
  - exists 0%nat. split; [lia|]. split; [done|]. lia.
  - destruct (P 0) eqn:H0.
    + exists 0%nat. split; [lia|]. split; [done|]. lia.
    + destruct (IH (λ i, P (i + 1))) as (d' & Hle & Hd' & Hlow).
      { by replace (Z.of_nat d + 1) with (Z.of_nat (S d)) by lia. }
      exists (S d'). split; [lia|]. split.
      { by replace (Z.of_nat (S d')) with (Z.of_nat d' + 1) by lia. }
      intros i Hi. destruct (decide (i = 0)) as [->|]; [done|].
      replace i with (i - 1 + 1) by lia. apply Hlow. lia.
Qed.

(** ** The order in which candidates are probed *)

Lemma length_probes n len : ∀ b, length (probes n b len) = len.
Proof. induction len as [|len IH]; intros b; simpl; [done|]. by rewrite IH. Qed.

Lemma lookup_probes n len : ∀ b (i : nat) x,
  probes n b len !! i = Some x ↔ (i < len)%nat ∧ x = (b + Z.of_nat i) mod n.
Proof.
  induction len as [|len IH]; intros b i x; simpl.
  - rewrite lookup_nil. split; [done|lia].
  - destruct i as [|i]; simpl.
    + rewrite Z.add_0_r. split; [intros [= <-]; split; [lia|done]|].
      by intros [_ ->].
    + rewrite IH. replace (b + 1 + Z.of_nat i) with (b + Z.of_nat (S i)) by lia.
      split; intros [? ?]; split; (done || lia).
Qed.

Lemma NoDup_probes n b len :
  0 < n → Z.of_nat len ≤ n → NoDup (probes n b len).
Proof.
  intros Hn Hlen. apply NoDup_alt. intros i j x.
  rewrite !lookup_probes. intros [Hi ->] [Hj Heq].
  apply (mod_add_inj n b) in Heq; lia.
Qed.

Lemma probes_Permutation n b :
  0 < n → probes n b (Z.to_nat n) ≡ₚ seqZ 0 n.
Proof.
  intros Hn. apply submseteq_length_Permutation.
  - apply NoDup_submseteq; [apply NoDup_probes; lia|].
    intros x [i Hi]%list_elem_of_lookup. apply lookup_probes in Hi as [_ ->].
    apply elem_of_seqZ. pose proof (Z.mod_pos_bound (b + Z.of_nat i) n Hn). lia.
  - by rewrite length_probes, length_seqZ.
Qed.

(** ** One dispatch, from the place the search stops *)

Lemma vmm_scheduler_next_at w (d fuel : nat) :
  world_ok w = true →
  0 < vmm_manager_vcpu_count (vcpus w) →
  (∀ i, 0 ≤ i < Z.of_nat d →
     search_stops (vcpus w) (vcpu_current (sched w))
       ((vcpu_current (sched w) + 1 + i) mod vmm_manager_vcpu_count (vcpus w))
     = false) →
  search_stops (vcpus w) (vcpu_current (sched w))
    ((vcpu_current (sched w) + 1 + Z.of_nat d)
       mod vmm_manager_vcpu_count (vcpus w)) = true →
  (d ≤ fuel)%nat →
  ∃ w', vmm_scheduler_next fuel w = Ok w'
    ∧ dispatch_result w
        ((vcpu_current (sched w) + 1 + Z.of_nat d)
           mod vmm_manager_vcpu_count (vcpus w)) w'.
Proof.
  intros Hok HN Hno Hyes Hfuel.
  apply vmm_scheduler_next_effect; [done|by apply Z.mod_pos_bound|].
  by apply scheduler_next_pick_finds.
Qed.

Lemma num_dispatched current nxt i v : num (dispatched current nxt i v) = num v.
Proof. unfold dispatched. repeat case_match; done. Qed.

Lemma tick_count_dispatched current nxt i v :
  tick_count (dispatched current nxt i v) = tick_count v.
Proof. unfold dispatched. repeat case_match; done. Qed.

Lemma preempt_count_dispatched current nxt i v :
  preempt_count (dispatched current nxt i v) = preempt_count v.
Proof. unfold dispatched. repeat case_match; done. Qed.

Lemma dispatch_result_count w nxt w' :
  dispatch_result w nxt w' →
  vmm_manager_vcpu_count (vcpus w') = vmm_manager_vcpu_count (vcpus w).
Proof. intros (_ & _ & Hlen & _). unfold vmm_manager_vcpu_count. by rewrite Hlen. Qed.

Lemma dispatch_result_lookup w nxt w' (i : nat) v' :
  dispatch_result w nxt w' → vcpus w' !! i = Some v' →
  ∃ v, vcpus w !! i = Some v
       ∧ v' = dispatched (vcpu_current (sched w)) nxt i v.
Proof.
  intros (_ & _ & Hlen & Hlook) Hv'.
  destruct (lookup_lt_is_Some_2 (vcpus w) i) as [v Hv].
  { rewrite <-Hlen. by eapply lookup_lt_Some. }
  exists v. split; [done|]. apply Hlook in Hv. congruence.
Qed.

Lemma dispatch_result_ok w nxt w' :
  world_ok w = true →
  0 ≤ nxt < vmm_manager_vcpu_count (vcpus w) →
  dispatch_result w nxt w' →
  world_ok w' = true.
Proof.
  intros Hok Hn Hres. apply world_ok_intro.
  - intros i v' Hv'.
    destruct (dispatch_result_lookup _ _ _ _ _ Hres Hv') as (v & Hv & ->).
    rewrite num_dispatched. by eapply world_ok_num.
  - rewrite (dispatch_result_count _ _ _ Hres).
    destruct Hres as (-> & _). simpl. by right.
Qed.

Lemma is_ready_lookup m i v :
  0 ≤ i → m !! Z.to_nat i = Some v →
  is_ready m i = bool_decide (state v = VMM_VCPU_STATE_READY).
Proof.
  intros Hi Hv. unfold is_ready.
  rewrite manager_vcpu_in_range.
  - simpl. by rewrite Hv.
  - apply lookup_lt_Some in Hv. unfold vmm_manager_vcpu_count. lia.
Qed.

Lemma is_ready_in_range m i :
  is_ready m i = true → 0 ≤ i < vmm_manager_vcpu_count m.
Proof.
  unfold is_ready, vmm_manager_vcpu. case_bool_decide; [done|]. simpl. done.
Qed.

Lemma is_runnable_lookup w i v :
  0 ≤ i → vcpus w !! Z.to_nat i = Some v →
  is_runnable w i
  = bool_decide (state v = VMM_VCPU_STATE_READY)
    || (bool_decide (i = vcpu_current (sched w))
        && bool_decide (state v = VMM_VCPU_STATE_RUNNING)).
Proof.
  intros Hi Hv. unfold is_runnable.
  rewrite manager_vcpu_in_range.
  - simpl. by rewrite Hv.
  - apply lookup_lt_Some in Hv. unfold vmm_manager_vcpu_count. lia.
Qed.

Lemma is_runnable_out_of_range w i :
  ¬ (0 ≤ i < vmm_manager_vcpu_count (vcpus w)) → is_runnable w i = false.
Proof. intros Hi. unfold is_runnable. by rewrite manager_vcpu_out_of_range. Qed.

Lemma is_runnable_stops w i :
  is_runnable w i = true →
  search_stops (vcpus w) (vcpu_current (sched w)) i = true.
Proof.
  unfold is_runnable, search_stops, is_ready.
  destruct (deref _ _); [|done..].
  repeat case_bool_decide; simpl; done.
Qed.

Lemma is_ready_runnable w i :
  is_ready (vcpus w) i = true → is_runnable w i = true.
Proof.
  unfold is_runnable, is_ready. destruct (deref _ _); [|done..].
  by intros ->.
Qed.

(** A dispatch that settles on a vcpu of the rotation leaves the rotation
    as it was. *)
Lemma dispatch_result_runnable w nxt w' :
  world_ok w = true →
  0 ≤ nxt < vmm_manager_vcpu_count (vcpus w) →
  is_runnable w nxt = true →
  dispatch_result w nxt w' →
  ∀ i, is_runnable w' i = is_runnable w i.
Proof.
  intros Hok Hn Hrun Hres i.
  pose proof (dispatch_result_count _ _ _ Hres) as Hcnt.
  destruct (decide (0 ≤ i < vmm_manager_vcpu_count (vcpus w))) as [Hi|Hi];
    [|by rewrite !is_runnable_out_of_range by (rewrite ?Hcnt; done)].
  destruct (deref_in_range _ _ Hi) as (v & Hv & _).
  destruct (deref_in_range _ _ Hn) as (vn & Hvn & _).
  destruct Hres as (Hs & _ & _ & Hlook).
  rewrite (is_runnable_lookup w i v) by (done || lia).
  rewrite (is_runnable_lookup w' i _ ltac:(lia) (Hlook _ _ Hv)).
  rewrite (is_runnable_lookup w nxt vn) in Hrun by (done || lia).
  rewrite Hs. simpl. unfold dispatched.
  rewrite Z2Nat.id by lia.
  destruct (decide (i = nxt)) as [->|Hne].
  - rewrite Hv in Hvn. simplify_eq.
    rewrite !(bool_decide_eq_true_2 (nxt = nxt)) by done. simpl.
    by rewrite Hrun.
  - rewrite !(bool_decide_eq_false_2 (i = nxt)) by done.
    destruct (bool_decide (i = vcpu_current (sched w))) eqn:Hc;
      destruct (bool_decide (state v = VMM_VCPU_STATE_RUNNING)) eqn:Hr;
      simpl; rewrite ?Hr, ?orb_false_r, ?andb_false_r; try done.
    by apply bool_decide_eq_true in Hr as ->.
Qed.

(** ** Round robin *)

Section rotation.
Variable n : Z.
Variable runnable : Z → bool.
Variable fuel : nat.
Hypothesis Hn : 0 < n.
Hypothesis Hfuel : n - 1 ≤ Z.of_nat fuel.

Local Abbreviation in_rotation := (λ i : Z, runnable i = true).

Lemma rotation_dispatch w (g : Z) b :
  rotation_state n runnable w →
  0 ≤ g < n →
  (vcpu_current (sched w) + 1) mod n = (b - g) mod n →
  (∀ j, 0 ≤ j < g →
     search_stops (vcpus w) (vcpu_current (sched w)) ((b - g + j) mod n)
     = false) →
  runnable (b mod n) = true →
  ∃ w', vmm_scheduler_next fuel w = Ok w'
    ∧ vcpu_current (sched w') = b mod n
    ∧ rotation_state n runnable w'.
Proof.
  intros (Hok & Hcnt & Hrun) Hg Hstart Hno Hyes.
  assert ((vcpu_current (sched w) + 1 + g) mod n = b mod n) as Hat.
  { rewrite (mod_shift n _ (b - g)) by done. f_equal. lia. }
  destruct (vmm_scheduler_next_at w (Z.to_nat g) fuel) as (w' & Hnext & Hres);
    rewrite ?Hcnt, ?Z2Nat.id by lia; [done|done| | |lia|].
  - intros j Hj. rewrite (mod_shift n _ (b - g)) by done. by apply Hno.
  - rewrite Hat. apply is_runnable_stops. by rewrite Hrun.
  - rewrite Hcnt, Z2Nat.id, Hat in Hres by lia.
    exists w'. split; [done|].
    assert (0 ≤ b mod n < vmm_manager_vcpu_count (vcpus w)) as Hin
      by (rewrite Hcnt; by apply Z.mod_pos_bound).
    split; [by destruct Hres as (-> & _)|]. split; [|split].
    + by eapply dispatch_result_ok.
    + by rewrite (dispatch_result_count _ _ _ Hres).
    + intros i. rewrite <-Hrun.
      eapply dispatch_result_runnable; [done|exact Hin| |done].
      by rewrite Hrun.
Qed.

Lemma dispatch_n_probes (len : nat) : ∀ b (g : Z) w (k : nat),
  rotation_state n runnable w →
  0 ≤ g → g + Z.of_nat len ≤ n →
  (vcpu_current (sched w) + 1) mod n = (b - g) mod n →
  (∀ j, 0 ≤ j < g →
     search_stops (vcpus w) (vcpu_current (sched w)) ((b - g + j) mod n)
     = false) →
  (∀ i, 0 ≤ i < Z.of_nat len - 1 → (b + i) mod n ≠ vcpu_current (sched w)) →
  (k ≤ length (filter in_rotation (probes n b len)))%nat →
  ∃ w', dispatch_n fuel k w
        = Ok (take k (filter in_rotation (probes n b len)), w')
    ∧ rotation_state n runnable w'.
Proof.
  induction len as [|len IH]; intros b g w k Hrot Hg Hlen Hstart Hno Hcur Hk.
  { simpl in *. assert (k = 0%nat) as -> by lia. by exists w. }
  simpl probes in *. destruct (runnable (b mod n)) eqn:Hr.
  - rewrite filter_cons_True in * by done.
    destruct k as [|k]; [by exists w|]. simpl in Hk.
    destruct (rotation_dispatch w g b) as (w1 & Hnext & Hc1 & Hrot1);
      [done|lia|done|done|done|].
    destruct (IH (b + 1) 0 w1 k) as (w' & Hrun & Hrot'); [done|lia|lia| | | |lia|].
    + rewrite Hc1, Z.add_mod_idemp_l by lia. f_equal. lia.
    + lia.
    + intros i Hi. rewrite Hc1. intros Heq.
      replace (b mod n) with ((b + 0) mod n) in Heq by (f_equal; lia).
      replace (b + 1 + i) with (b + (1 + i)) in Heq by lia.
      apply mod_add_inj in Heq; lia.
    + exists w'. split; [|done]. simpl. rewrite Hnext. simpl.
      rewrite Hrun. simpl. by rewrite Hc1.
  - rewrite filter_cons_False in * by (by rewrite Hr).
    destruct len as [|len].
    { simpl in *. assert (k = 0%nat) as -> by lia. by exists w. }
    apply (IH (b + 1) (g + 1) w k); [done|lia|lia| | | |done].
    + rewrite Hstart. f_equal. lia.
    + intros j Hj. replace (b + 1 - (g + 1)) with (b - g) by lia.
      destruct (decide (j = g)) as [->|]; [|apply Hno; lia].
      replace (b - g + g) with b by lia.
      unfold search_stops. apply orb_false_iff. split.
      * destruct (is_ready (vcpus w) (b mod n)) eqn:Hrd; [|done].
        destruct Hrot as (_ & _ & Hrun).
        apply is_ready_runnable in Hrd. congruence.
      * apply bool_decide_eq_false_2.
        specialize (Hcur 0). rewrite Z.add_0_r in Hcur. apply Hcur. lia.
    + intros i Hi. replace (b + 1 + i) with (b + (i + 1)) by lia.
      apply Hcur. lia.
Qed.

(** From any state of the rotation, the next dispatches visit the
    rotation in probing order, each member once. *)
Lemma dispatch_n_round w (k : nat) :
  rotation_state n runnable w →
  (k ≤ length (filter in_rotation
                 (probes n (vcpu_current (sched w) + 1) (Z.to_nat n))))%nat →
  ∃ w', dispatch_n fuel k w
        = Ok (take k (filter in_rotation
                        (probes n (vcpu_current (sched w) + 1) (Z.to_nat n))),
              w')
    ∧ rotation_state n runnable w'.
Proof.
  intros Hrot Hk.
  apply (dispatch_n_probes _ _ 0); [done|lia|lia|f_equal; lia|lia| |done].
  intros i Hi Heq. destruct Hrot as (Hok & Hcnt & _).
  destruct (world_ok_current w Hok) as [Hc|Hc].
  - pose proof (Z.mod_pos_bound (vcpu_current (sched w) + 1 + i) n Hn). lia.
  - rewrite Hcnt in Hc.
    assert ((vcpu_current (sched w) + (1 + i)) mod n
            = (vcpu_current (sched w) + 0) mod n) as Heq'.
    { rewrite Z.add_0_r, (Z.mod_small (vcpu_current (sched w))) by done.
      rewrite <-Heq. f_equal. lia. }
    apply mod_add_inj in Heq'; lia.
Qed.

Lemma length_rotation b :
  length (filter in_rotation (probes n b (Z.to_nat n)))
  = length (filter in_rotation (seqZ 0 n)).
Proof. apply Permutation_length. by rewrite probes_Permutation. Qed.

(** Any number of dispatches keeps a non-empty rotation going. *)
Lemma dispatch_n_rotation (j : nat) : ∀ w,
  rotation_state n runnable w →
  filter in_rotation (seqZ 0 n) ≠ [] →
  ∃ sel w', dispatch_n fuel j w = Ok (sel, w')
    ∧ rotation_state n runnable w'.
Proof.
  induction j as [|j IH]; intros w Hrot Hne; [by exists [], w|].
  destruct (dispatch_n_round w 1 Hrot) as (w1 & Hrun & Hrot1).
  { rewrite length_rotation. destruct (filter _ (seqZ 0 n)); [done|simpl; lia]. }
  simpl in Hrun. destruct (vmm_scheduler_next fuel w) as [w1'| |] eqn:Hnext;
    [|done..]. simpl in Hrun. assert (w1' = w1) as -> by by simplify_eq.
  destruct (IH w1 Hrot1 Hne) as (sel & w' & Hj & Hrot').
  eexists _, w'. split; [|done]. simpl. rewrite Hnext. simpl. by rewrite Hj.
Qed.
End rotation.

(** ** The dispatcher returns *)

Lemma search_start_probe w i :
  world_ok w = true →
  0 < vmm_manager_vcpu_count (vcpus w) →
  (search_start w + i) mod vmm_manager_vcpu_count (vcpus w)
  = (vcpu_current (sched w) + 1 + i) mod vmm_manager_vcpu_count (vcpus w).
Proof.
  intros Hok HN. unfold search_start.
  destruct (world_ok_current w Hok) as [Hc|Hc].
  - rewrite manager_vcpu_out_of_range by lia. f_equal. lia.
  - rewrite manager_vcpu_in_range by done. by rewrite Z.add_mod_idemp_l by lia.
Qed.

(** With a current vcpu or a Ready vcpu the search stops within one lap. *)
Lemma search_stops_first w :
  world_ok w = true →
  0 < vmm_manager_vcpu_count (vcpus w) →
  (0 ≤ vcpu_current (sched w) < vmm_manager_vcpu_count (vcpus w)
   ∨ ∃ i, is_ready (vcpus w) i = true) →
  ∃ d : nat, Z.of_nat d < vmm_manager_vcpu_count (vcpus w)
    ∧ search_stops (vcpus w) (vcpu_current (sched w))
        ((vcpu_current (sched w) + 1 + Z.of_nat d)
           mod vmm_manager_vcpu_count (vcpus w)) = true
    ∧ ∀ i, 0 ≤ i < Z.of_nat d →
        search_stops (vcpus w) (vcpu_current (sched w))
          ((vcpu_current (sched w) + 1 + i)
             mod vmm_manager_vcpu_count (vcpus w)) = false.
Proof.
  intros Hok HN Hsome.
  set (n := vmm_manager_vcpu_count (vcpus w)) in *.
  set (c := vcpu_current (sched w)) in *.
  assert (∃ i, 0 ≤ i < n ∧ search_stops (vcpus w) c i = true) as (i & Hi & Hs).
  { destruct Hsome as [Hc|[i Hi]].
    - exists c. split; [done|]. unfold search_stops.
      by rewrite bool_decide_eq_true_2, orb_true_r.
    - exists i. split; [by apply is_ready_in_range|].
      unfold search_stops. by rewrite Hi. }
  destruct (first_hit (Z.to_nat ((i - c - 1) mod n))
              (λ k, search_stops (vcpus w) c ((c + 1 + k) mod n)))
    as (d & Hle & Hd & Hlow).
  { pose proof (Z.mod_pos_bound (i - c - 1) n HN).
    rewrite Z2Nat.id by lia. by rewrite mod_reach. }
  exists d. pose proof (Z.mod_pos_bound (i - c - 1) n HN).
  split; [lia|done].
Qed.

Lemma vmm_scheduler_next_returns w (fuel : nat) :
  world_ok w = true →
  0 < vmm_manager_vcpu_count (vcpus w) →
  vmm_manager_vcpu_count (vcpus w) - 1 ≤ Z.of_nat fuel →
  (0 ≤ vcpu_current (sched w) < vmm_manager_vcpu_count (vcpus w)
   ∨ ∃ i, is_ready (vcpus w) i = true) →
  ∃ (d : nat) w',
    Z.of_nat d < vmm_manager_vcpu_count (vcpus w)
    ∧ search_stops (vcpus w) (vcpu_current (sched w))
        ((search_start w + Z.of_nat d)
           mod vmm_manager_vcpu_count (vcpus w)) = true
    ∧ (∀ i, 0 ≤ i < Z.of_nat d →
        search_stops (vcpus w) (vcpu_current (sched w))
          ((search_start w + i) mod vmm_manager_vcpu_count (vcpus w)) = false)
    ∧ vmm_scheduler_next fuel w = Ok w'
    ∧ dispatch_result w
        ((search_start w + Z.of_nat d) mod vmm_manager_vcpu_count (vcpus w)) w'.
Proof.
  intros Hok HN Hfuel Hsome.
  destruct (search_stops_first w Hok HN Hsome) as (d & Hd & Hyes & Hno).
  destruct (vmm_scheduler_next_at w d fuel) as (w' & Hnext & Hres);
    [done|done|done|done|lia|].
  exists d, w'. rewrite search_start_probe by done.
  split; [done|]. split; [done|]. split; [|done].
  intros i Hi. rewrite search_start_probe by done. by apply Hno.
Qed.

(** The search settles only on ids of vcpus, and whatever the dispatcher
    asks of its collaborators is a register switch. *)
Lemma scheduler_next_loop_in_range m current fuel : ∀ next r,
  scheduler_next_loop fuel m current next = Ok r →
  0 ≤ r < vmm_manager_vcpu_count m.
Proof.
  induction fuel as [|fuel IH]; intros next r; simpl;
    destruct (deref m (vmm_manager_vcpu m next)) as [v| |] eqn:Hd; try done;
    destruct (_ && _); try done; try apply IH;
    intros [= <-]; unfold vmm_manager_vcpu in Hd;
    case_bool_decide; done.
Qed.

Lemma scheduler_next_pick_in_range fuel w r :
  scheduler_next_pick fuel w = Ok r →
  0 ≤ r < vmm_manager_vcpu_count (vcpus w).
Proof.
  unfold scheduler_next_pick.
  destruct (match vmm_manager_vcpu _ _ with Some _ => _ | None => _ end);
    simpl; [|done..].
  case_bool_decide; [done|]. apply scheduler_next_loop_in_range.
Qed.

Lemma vmm_scheduler_next_calls fuel w w' :
  world_ok w = true →
  vmm_scheduler_next fuel w = Ok w' →
  ∃ l, calls w' = calls w ++ l ∧ forallb is_regs_switch l = true.
Proof.
  intros Hok Hnext.
  destruct (scheduler_next_pick fuel w) as [nxt| |] eqn:Hpick;
    [|by unfold vmm_scheduler_next in Hnext; rewrite Hpick in Hnext..].
  destruct (vmm_scheduler_next_effect fuel w nxt Hok
              (scheduler_next_pick_in_range _ _ _ Hpick) Hpick)
    as (w1 & Hnext1 & _ & Hcalls & _).
  rewrite Hnext in Hnext1. simplify_eq.
  eexists. split; [done|]. unfold switch_calls.
  repeat case_match; done.
Qed.

(** * The claims *)

(** C1 - Selection order and round robin.  In a well-formed state with at
    least one vcpu, when there is a current vcpu or some vcpu is Ready,
    the dispatcher returns, and the id it makes current is
    [(start + d) mod N], where [start] is one past the current index
    modulo N (0 without a current vcpu) and [d] is the least offset at
    which the candidate is Ready or is the current index.  As a
    consequence, when the rotation (the Ready vcpus, and the current one
    while Running) is not empty, then after any number [j] of dispatches
    the next [length (runnable_ids w)] dispatches select every member of
    the rotation exactly once. *)
Theorem dispatcher_round_robin (w : world) (fuel : nat) :
  world_ok w = true →
  0 < vmm_manager_vcpu_count (vcpus w) →
  vmm_manager_vcpu_count (vcpus w) - 1 ≤ Z.of_nat fuel →
  ((0 ≤ vcpu_current (sched w) < vmm_manager_vcpu_count (vcpus w)
    ∨ ∃ i, is_ready (vcpus w) i = true) →
   ∃ (d : nat) w',
     Z.of_nat d < vmm_manager_vcpu_count (vcpus w)
     ∧ vmm_scheduler_next fuel w = Ok w'
     ∧ vcpu_current (sched w')
       = (search_start w + Z.of_nat d) mod vmm_manager_vcpu_count (vcpus w)
     ∧ (∀ i, 0 ≤ i < Z.of_nat d →
          is_ready (vcpus w)
            ((search_start w + i) mod vmm_manager_vcpu_count (vcpus w)) = false
          ∧ (search_start w + i) mod vmm_manager_vcpu_count (vcpus w)
            ≠ vcpu_current (sched w))
     ∧ (is_ready (vcpus w) (vcpu_current (sched w')) = true
        ∨ vcpu_current (sched w') = vcpu_current (sched w)))
  ∧ (runnable_ids w ≠ [] →
     ∀ j : nat, ∃ sel_j w_j sel w',
       dispatch_n fuel j w = Ok (sel_j, w_j)
       ∧ dispatch_n fuel (length (runnable_ids w)) w_j = Ok (sel, w')
       ∧ sel ≡ₚ runnable_ids w
       ∧ NoDup sel).
Proof.
  intros Hok HN Hfuel. split.
  - intros Hsome.
    destruct (vmm_scheduler_next_returns w fuel Hok HN Hfuel Hsome)
      as (d & w' & Hd & Hyes & Hno & Hnext & Hres).
    exists d, w'. destruct Hres as (Hs & _). rewrite Hs. simpl.
    split; [done|]. split; [done|]. split; [done|]. split.
    + intros i Hi. specialize (Hno i Hi). unfold search_stops in Hno.
      apply orb_false_iff in Hno as [Hr Hc]. split; [done|].
      by apply bool_decide_eq_false in Hc.
    + unfold search_stops in Hyes. apply orb_true_iff in Hyes as [Hr|Hc];
        [by left|right]. by apply bool_decide_eq_true in Hc.
  - intros Hne j.
    set (n := vmm_manager_vcpu_count (vcpus w)) in *.
    assert (rotation_state n (is_runnable w) w) as Hrot by done.
    destruct (dispatch_n_rotation n (is_runnable w) fuel HN Hfuel j w Hrot Hne)
      as (sel_j & w_j & Hj & Hrot_j).
    destruct (dispatch_n_round n (is_runnable w) fuel HN Hfuel w_j
                (length (runnable_ids w)) Hrot_j) as (w' & Hround & _).
    { by rewrite length_rotation. }
    rewrite take_ge in Hround by by rewrite length_rotation.
    eexists sel_j, w_j, _, w'. split; [done|]. split; [exact Hround|]. split.
    + unfold runnable_ids. by rewrite probes_Permutation.
    + apply NoDup_filter, NoDup_probes; lia.
Qed.

Lemma dispatcher_round_robin_witness :
  world_ok world_ABC = true
  ∧ runnable_ids world_ABC = [0; 1; 2]
  ∧ ∃ sel_j w_j sel w',
      dispatch_n 2 4 world_ABC = Ok (sel_j, w_j)
      ∧ dispatch_n 2 (length (runnable_ids world_ABC)) w_j = Ok (sel, w')
      ∧ sel ≡ₚ runnable_ids world_ABC
      ∧ NoDup sel.
Proof.
  split; [reflexivity|]. split; [reflexivity|].
  refine (proj2 (dispatcher_round_robin world_ABC 2 _ _ _) _ 4%nat).
  - reflexivity.
  - reflexivity.
  - vm_compute. discriminate.
  - discriminate.
Defined.

(** C2 - Switch policy.  In a well-formed state in which the dispatcher's
    search succeeds, the dispatcher returns and asks for a register
    switch exactly when there was no current vcpu or the selected vcpu is
    not the current one.  Without a current vcpu the switch has no
    source.  With a current vcpu other than the selected one: a Running
    current is demoted to Ready and is the source of the switch; a Ready
    current is the source and stays Ready; a Paused, Halted or Reset
    current is left as it is and the switch has no source.  (Without a
    current vcpu and without a Ready vcpu the dispatcher does not return,
    and no switch is made: that case is outside the hypotheses.) *)
Theorem dispatcher_switch_policy (w : world) (fuel : nat) :
  world_ok w = true →
  0 < vmm_manager_vcpu_count (vcpus w) →
  vmm_manager_vcpu_count (vcpus w) - 1 ≤ Z.of_nat fuel →
  (0 ≤ vcpu_current (sched w) < vmm_manager_vcpu_count (vcpus w)
   ∨ ∃ i, is_ready (vcpus w) i = true) →
  ∃ w', vmm_scheduler_next fuel w = Ok w'
    ∧ (calls w' ≠ calls w ↔
         vmm_manager_vcpu (vcpus w) (vcpu_current (sched w)) = None
         ∨ vcpu_current (sched w') ≠ vcpu_current (sched w))
    ∧ (vmm_manager_vcpu (vcpus w) (vcpu_current (sched w)) = None →
         calls w' = calls w ++
           [vmm_vcpu_regs_switch None
              (vmm_manager_vcpu (vcpus w) (vcpu_current (sched w')))])
    ∧ (∀ (c : nat) vc,
         vmm_manager_vcpu (vcpus w) (vcpu_current (sched w)) = Some c →
         vcpus w !! c = Some vc →
         vcpu_current (sched w') ≠ vcpu_current (sched w) →
         (state vc = VMM_VCPU_STATE_RUNNING →
            (∃ vc', vcpus w' !! c = Some vc'
               ∧ state vc' = VMM_VCPU_STATE_READY
               ∧ vc' = set_state VMM_VCPU_STATE_READY vc)
            ∧ calls w' = calls w ++
                [vmm_vcpu_regs_switch (Some c)
                   (vmm_manager_vcpu (vcpus w) (vcpu_current (sched w')))])
         ∧ (state vc = VMM_VCPU_STATE_READY →
            vcpus w' !! c = Some vc
            ∧ calls w' = calls w ++
                [vmm_vcpu_regs_switch (Some c)
                   (vmm_manager_vcpu (vcpus w) (vcpu_current (sched w')))])
         ∧ (state vc = VMM_VCPU_STATE_PAUSED
            ∨ state vc = VMM_VCPU_STATE_HALTED
            ∨ state vc = VMM_VCPU_STATE_RESET →
            vcpus w' !! c = Some vc
            ∧ calls w' = calls w ++
                [vmm_vcpu_regs_switch None
                   (vmm_manager_vcpu (vcpus w) (vcpu_current (sched w')))])).
Proof.
  intros Hok HN Hfuel Hsome.
  destruct (vmm_scheduler_next_returns w fuel Hok HN Hfuel Hsome)
    as (d & w' & Hd & _ & _ & Hnext & Hres).
  set (nxt := (search_start w + Z.of_nat d)
                mod vmm_manager_vcpu_count (vcpus w)) in *.
  assert (0 ≤ nxt < vmm_manager_vcpu_count (vcpus w)) as Hn
    by by apply Z.mod_pos_bound.
  destruct Hres as (Hs & Hcalls & _ & Hlook).
  exists w'. split; [done|]. rewrite Hs. simpl.
  rewrite (manager_vcpu_in_range _ nxt) by done.
  rewrite Hcalls. unfold switch_calls.
  split; [|split].
  - destruct (vmm_manager_vcpu _ (vcpu_current _)) as [c|] eqn:Hcur.
    + case_bool_decide as Heq.
      * rewrite app_nil_r. split; [done|]. intros [?|?]; congruence.
      * split; [intros _; right; congruence|]. intros _ Happ.
        rewrite <-(app_nil_r (calls w)) in Happ at 2.
        apply app_inv_head in Happ. repeat case_match; try done.
        unfold vmm_manager_vcpu in Hcur. case_bool_decide; simplify_eq.
        apply lookup_ge_None in H. unfold vmm_manager_vcpu_count in *. lia.
    + split; [by left|]. intros _ Happ.
      rewrite <-(app_nil_r (calls w)) in Happ at 2.
      by apply app_inv_head in Happ.
  - by intros ->.
  - intros c vc Hcur Hvc Hne. rewrite Hcur, Hvc.
    rewrite bool_decide_eq_false_2 by congruence.
    assert (Z.of_nat c = vcpu_current (sched w)) as Hc.
    { unfold vmm_manager_vcpu in Hcur. case_bool_decide; simplify_eq. lia. }
    specialize (Hlook c vc Hvc). unfold dispatched in Hlook.
    rewrite (bool_decide_eq_false_2 (_ = nxt)) in Hlook by congruence.
    rewrite (bool_decide_eq_true_2 (_ = vcpu_current _)) in Hlook by done.
    simpl in Hlook. split; [|split].
    + intros Hst. rewrite Hst in *.
      rewrite bool_decide_eq_true_2 in Hlook by done.
      split; [|done]. by eexists.
    + intros Hst. rewrite Hst in *. by rewrite bool_decide_eq_false_2 in Hlook.
    + intros Hst.
      assert (state vc ≠ VMM_VCPU_STATE_RUNNING) as Hnr
        by (destruct Hst as [Hst|[Hst|Hst]]; rewrite Hst; discriminate).
      rewrite bool_decide_eq_false_2 in Hlook by done.
      by destruct Hst as [->|[->| ->]].
Qed.

Lemma dispatcher_switch_policy_witness :
  ∃ w', vmm_scheduler_next 2 world_ABC = Ok w'
    ∧ vcpu_current (sched w') = 1
    ∧ (∃ vc', vcpus w' !! 0%nat = Some vc'
         ∧ state vc' = VMM_VCPU_STATE_READY
         ∧ vc' = mk_vcpu 0 (Some 0%nat) VMM_VCPU_STATE_READY 0 1 1
                   (Some 7%nat))
    ∧ calls w' = [vmm_vcpu_regs_switch (Some 0%nat) (Some 1%nat)].
Proof.
  destruct (dispatcher_switch_policy world_ABC 2)
    as (w' & Hnext & _ & _ & Hcur).
  - reflexivity.
  - reflexivity.
  - vm_compute. discriminate.
  - left. split; [vm_compute; discriminate|reflexivity].
  - exists w'. split; [exact Hnext|].
    assert (vcpu_current (sched w') = 1) as Hsel.
    { vm_compute in Hnext. injection Hnext as <-. reflexivity. }
    split; [exact Hsel|].
    destruct (Hcur 0%nat vcpu_A) as (Hrun & _).
    + reflexivity.
    + reflexivity.
    + rewrite Hsel. discriminate.
    + destruct (Hrun eq_refl) as [Hv Hc]. split; [exact Hv|].
      rewrite Hc, Hsel. reflexivity.
Defined.

(** C3 - Dispatch postcondition.  In a well-formed state in which the
    dispatcher's search succeeds, the dispatcher returns; the vcpu it
    selected is the one [sched.vcpu_current] names afterwards, its state
    is Running, and its [tick_pending] equals its [tick_count], which the
    dispatch did not change. *)
Theorem dispatch_postcondition (w : world) (fuel : nat) :
  world_ok w = true →
  0 < vmm_manager_vcpu_count (vcpus w) →
  vmm_manager_vcpu_count (vcpus w) - 1 ≤ Z.of_nat fuel →
  (0 ≤ vcpu_current (sched w) < vmm_manager_vcpu_count (vcpus w)
   ∨ ∃ i, is_ready (vcpus w) i = true) →
  ∃ w' (p : nat) v v',
    vmm_scheduler_next fuel w = Ok w'
    ∧ scheduler_next_pick fuel w = Ok (vcpu_current (sched w'))
    ∧ vmm_manager_vcpu (vcpus w') (vcpu_current (sched w')) = Some p
    ∧ vcpus w !! p = Some v
    ∧ vcpus w' !! p = Some v'
    ∧ num v' = vcpu_current (sched w')
    ∧ state v' = VMM_VCPU_STATE_RUNNING
    ∧ tick_pending v' = tick_count v'
    ∧ tick_count v' = tick_count v.
Proof.
  intros Hok HN Hfuel Hsome.
  destruct (search_stops_first w Hok HN Hsome) as (d & Hd & Hyes & Hno).
  pose proof (scheduler_next_pick_finds w d fuel Hok HN Hno Hyes
                ltac:(lia)) as Hpick.
  set (nxt := (vcpu_current (sched w) + 1 + Z.of_nat d)
                mod vmm_manager_vcpu_count (vcpus w)) in *.
  assert (0 ≤ nxt < vmm_manager_vcpu_count (vcpus w)) as Hn
    by by apply Z.mod_pos_bound.
  destruct (vmm_scheduler_next_effect fuel w nxt Hok Hn Hpick)
    as (w' & Hnext & Hs & Hcalls & Hlen & Hlook).
  destruct (deref_in_range _ _ Hn) as (v & Hv & _).
  exists w', (Z.to_nat nxt), v, (dispatched (vcpu_current (sched w)) nxt
                                   (Z.to_nat nxt) v).
  rewrite Hs. simpl. split; [done|]. split; [done|]. split.
  { apply manager_vcpu_in_range. unfold vmm_manager_vcpu_count in *.
    by rewrite Hlen. }
  split; [done|]. split; [by apply Hlook|].
  rewrite num_dispatched, tick_count_dispatched.
  split; [rewrite (world_ok_num _ _ _ Hok Hv); lia|].
  unfold dispatched. rewrite bool_decide_eq_true_2 by lia. done.
Qed.

Lemma dispatch_postcondition_witness :
  ∃ w' (p : nat) v v',
    vmm_scheduler_next 2 world_ABC = Ok w'
    ∧ scheduler_next_pick 2 world_ABC = Ok (vcpu_current (sched w'))
    ∧ vmm_manager_vcpu (vcpus w') (vcpu_current (sched w')) = Some p
    ∧ vcpus world_ABC !! p = Some v
    ∧ vcpus w' !! p = Some v'
    ∧ num v' = vcpu_current (sched w')
    ∧ state v' = VMM_VCPU_STATE_RUNNING
    ∧ tick_pending v' = tick_count v'
    ∧ tick_count v' = tick_count v.
Proof.
  apply (dispatch_postcondition world_ABC 2).
  - reflexivity.
  - reflexivity.
  - vm_compute. discriminate.
  - left. split; [vm_compute; discriminate|reflexivity].
Defined.

(** C4 - The search loop does not always terminate.  Right after
    initialisation ([sched.vcpu_current] is -1) with a single vcpu that is
    not Ready, the loop's guard [next != sched.vcpu_current] can never
    fail, and the dispatcher spins: whatever number of iterations is
    allowed, it has not returned. *)
Theorem dispatcher_spins_at_boot :
  ∀ fuel : nat, vmm_scheduler_next fuel world_boot = OutOfFuel.
Proof.
  intros fuel. unfold vmm_scheduler_next, scheduler_next_pick. simpl.
  rewrite (scheduler_next_loop_spins (vcpus world_boot) (-1)); [done|done| |done].
  intros i Hi. assert (i = 0) as -> by (unfold vmm_manager_vcpu_count in Hi;
    simpl in Hi; lia). reflexivity.
Qed.

(** C10 - Fallback to the current vcpu.  In a well-formed state with a
    current vcpu and no other vcpu Ready, the dispatcher returns without
    asking for a register switch, leaves [sched.vcpu_current] as it was,
    and sets the current vcpu to Running with [tick_pending] reloaded
    from [tick_count], whatever its state was (Paused, Halted and Reset
    included); every other vcpu is left as it was. *)
Theorem dispatcher_fallback_promotes (w : world) (fuel : nat) (c : nat) vc :
  world_ok w = true →
  vmm_manager_vcpu_count (vcpus w) - 1 ≤ Z.of_nat fuel →
  vmm_manager_vcpu (vcpus w) (vcpu_current (sched w)) = Some c →
  vcpus w !! c = Some vc →
  (∀ i, i ≠ vcpu_current (sched w) → is_ready (vcpus w) i = false) →
  ∃ w', vmm_scheduler_next fuel w = Ok w'
    ∧ calls w' = calls w
    ∧ sched w' = sched w
    ∧ vcpus w' !! c
      = Some (set_state VMM_VCPU_STATE_RUNNING
                (set_tick_pending (tick_count vc) vc))
    ∧ ∀ i : nat, i ≠ c → vcpus w' !! i = vcpus w !! i.
Proof.
  intros Hok Hfuel Hcur Hvc Hnone.
  assert (0 ≤ vcpu_current (sched w) < vmm_manager_vcpu_count (vcpus w)
          ∧ c = Z.to_nat (vcpu_current (sched w))) as [Hc ->].
  { unfold vmm_manager_vcpu in Hcur. case_bool_decide; by simplify_eq. }
  destruct (vmm_scheduler_next_returns w fuel Hok ltac:(lia) Hfuel
              ltac:(by left))
    as (d & w' & Hd & Hyes & _ & Hnext & Hres).
  set (nxt := (search_start w + Z.of_nat d)
                mod vmm_manager_vcpu_count (vcpus w)) in *.
  assert (nxt = vcpu_current (sched w)) as Hnxt.
  { unfold search_stops in Hyes. apply orb_true_iff in Hyes as [Hr|Hr].
    - destruct (decide (nxt = vcpu_current (sched w))) as [|Hne]; [done|].
      rewrite Hnone in Hr; done.
    - by apply bool_decide_eq_true in Hr. }
  rewrite Hnxt in Hres. destruct Hres as (Hs & Hcalls & Hlen & Hlook).
  exists w'. split; [done|]. split; [|split; [|split]].
  - rewrite Hcalls. unfold switch_calls.
    rewrite manager_vcpu_in_range, bool_decide_eq_true_2 by done.
    by rewrite app_nil_r.
  - rewrite Hs. by destruct (sched w).
  - rewrite (Hlook _ _ Hvc). unfold dispatched.
    by rewrite bool_decide_eq_true_2 by lia.
  - intros i Hi. destruct (vcpus w !! i) as [v|] eqn:Hv.
    + rewrite (Hlook _ _ Hv). unfold dispatched.
      rewrite !(bool_decide_eq_false_2 (Z.of_nat i = _)) by lia. done.
    + apply lookup_ge_None in Hv. apply lookup_ge_None. lia.
Qed.

Lemma dispatcher_fallback_promotes_witness :
  ∃ w', vmm_scheduler_next 1 world_paused = Ok w'
    ∧ calls w' = calls world_paused
    ∧ sched w' = sched world_paused
    ∧ vcpus w' !! 1%nat
      = Some (mk_vcpu 1 (Some 0%nat) VMM_VCPU_STATE_RUNNING 0 5 5 None)
    ∧ ∀ i : nat, i ≠ 1%nat → vcpus w' !! i = vcpus world_paused !! i.
Proof.
  apply (dispatcher_fallback_promotes world_paused 1 1
           (mk_vcpu 1 (Some 0%nat) VMM_VCPU_STATE_PAUSED 0 5 2 None)).
  - reflexivity.
  - vm_compute. discriminate.
  - reflexivity.
  - reflexivity.
  - intros i Hi. unfold is_ready, vmm_manager_vcpu.
    case_bool_decide as Hr; [|reflexivity].
    assert (i = 0) as -> by (unfold vmm_manager_vcpu_count in Hr;
      simpl in *; lia). reflexivity.
Defined.

(** The branches of the tick handler.  On a timer tick: without a
    current vcpu the dispatcher runs; with a current vcpu whose
    [preempt_count] is not zero, no vcpu and no scheduler field changes;
    otherwise with [tick_pending] zero the dispatcher runs; otherwise
    [tick_pending] goes down by one and the tick callback, when there is
    one, is called with the new value.  The log of a tick that returns
    holds exactly one more re-arming of the timer, as its last entry. *)
Theorem tick_accountant (w : world) (fuel : nat) :
  world_ok w = true →
  (vmm_manager_vcpu (vcpus w) (vcpu_current (sched w)) = None →
     vmm_scheduler_timer_event fuel w
     = w1 ← vmm_scheduler_next fuel w; Ok (emit vmm_timer_event_restart w1))
  ∧ (∀ (p : nat) v,
       vmm_manager_vcpu (vcpus w) (vcpu_current (sched w)) = Some p →
       vcpus w !! p = Some v →
       (preempt_count v ≠ 0 →
          vmm_scheduler_timer_event fuel w
          = Ok (emit vmm_timer_event_restart w))
       ∧ (preempt_count v = 0 → tick_pending v = 0 →
          vmm_scheduler_timer_event fuel w
          = w1 ← vmm_scheduler_next fuel w;
            Ok (emit vmm_timer_event_restart w1))
       ∧ (preempt_count v = 0 → tick_pending v ≠ 0 →
          ∀ w1, w1 = store p (set_tick_pending (tick_pending v - 1)) w →
          vcpus w1 !! p = Some (set_tick_pending (tick_pending v - 1) v)
          ∧ (tick_func v = None →
               vmm_scheduler_timer_event fuel w
               = Ok (emit vmm_timer_event_restart w1))
          ∧ (∀ f, tick_func v = Some f →
               vmm_scheduler_timer_event fuel w
               = Ok (emit vmm_timer_event_restart
                       (emit (tick_func_call f (tick_pending v - 1)) w1)))))
  ∧ (∀ w', vmm_scheduler_timer_event fuel w = Ok w' →
       ∃ l, calls w' = calls w ++ l ++ [vmm_timer_event_restart]
            ∧ vmm_timer_event_restart ∉ l).
Proof.
  intros Hok. split; [|split].
  - intros Hcur. unfold vmm_scheduler_timer_event. by rewrite Hcur.
  - intros p v Hcur Hv. unfold vmm_scheduler_timer_event.
    rewrite Hcur. simpl. rewrite Hv. simpl. split; [|split].
    + intros Hpc. by rewrite bool_decide_eq_false_2.
    + intros Hpc Htp. by rewrite !bool_decide_eq_true_2.
    + intros Hpc Htp w1 ->.
      rewrite bool_decide_eq_true_2, bool_decide_eq_false_2 by done.
      simpl. rewrite !list_lookup_alter_eq, !Hv. simpl. split; [done|].
      split; [by intros ->|]. intros f ->.
      by rewrite bool_decide_eq_true_2.
  - intros w' Htick. unfold vmm_scheduler_timer_event in Htick.
    assert (∀ r, (w1 ← r; Ok (emit vmm_timer_event_restart w1)) = Ok w' →
              ∃ w1, r = Ok w1
                    ∧ calls w' = calls w1 ++ [vmm_timer_event_restart])
      as Hend.
    { intros [w1| |]; simpl; [|done..]. intros [= <-]. by exists w1. }
    apply Hend in Htick as (w1 & Hbody & ->).
    assert (∀ r, vmm_scheduler_next fuel w = r → r = Ok w1 →
              ∃ l, calls w1 ++ [vmm_timer_event_restart]
                   = calls w ++ l ++ [vmm_timer_event_restart]
                   ∧ vmm_timer_event_restart ∉ l) as Hdisp.
    { intros r Hr ->.
      destruct (vmm_scheduler_next_calls _ _ _ Hok Hr) as (l & -> & Hl).
      exists l. split; [by rewrite app_assoc|].
      intros Hin. rewrite forallb_forall in Hl.
      apply list_elem_of_In in Hin. by apply Hl in Hin. }
    destruct (vmm_manager_vcpu _ _) as [p|]; [|by eapply Hdisp].
    destruct (deref _ _) as [v| |]; simpl in Hbody; [|done..].
    case_bool_decide; [|simplify_eq; exists []; split; [done|apply not_elem_of_nil]].
    case_bool_decide; [by eapply Hdisp|].
    destruct (alter _ _ _ !! _) as [v1|]; simpl in Hbody; [|done].
    destruct (tick_func v1) as [f|];
      [case_bool_decide|]; simplify_eq; simpl.
    + exists [tick_func_call f (tick_pending v1)].
      split; [by rewrite <-app_assoc|]. by intros ?%list_elem_of_singleton.
    + exists []. split; [done|apply not_elem_of_nil].
    + exists []. split; [done|apply not_elem_of_nil].
Qed.

Lemma tick_accountant_witness :
  vmm_scheduler_timer_event 2 world_ABC
  = Ok (emit vmm_timer_event_restart
          (emit (tick_func_call 7 0)
             (store 0 (set_tick_pending 0) world_ABC))).
Proof.
  destruct (tick_accountant world_ABC 2 eq_refl) as (_ & Hcur & _).
  destruct (Hcur 0%nat vcpu_A eq_refl eq_refl) as (_ & _ & Hdec).
  destruct (Hdec eq_refl ltac:(discriminate) _ eq_refl) as (_ & _ & Hhook).
  exact (Hhook 7%nat eq_refl).
Defined.

(** C5 - The timer is not re-armed on every tick.  The handler re-arms
    the timer after the branch it took, and the branch taken without a
    current vcpu is a run of the dispatcher.  Right after initialisation
    ([sched.vcpu_current] is -1), with a single vcpu that is not Ready,
    that run never ends: whatever number of loop iterations is allowed,
    the tick has not returned, so the timer is never re-armed. *)
Theorem tick_never_rearms_at_boot :
  ∀ fuel : nat, vmm_scheduler_timer_event fuel world_boot = OutOfFuel.
Proof.
  intros fuel.
  assert (vmm_scheduler_next fuel world_boot = OutOfFuel) as Hnext.
  { unfold vmm_scheduler_next, scheduler_next_pick. simpl.
    rewrite (scheduler_next_loop_spins (vcpus world_boot) (-1));
      [done|done| |done].
    intros i Hi. assert (i = 0) as -> by (unfold vmm_manager_vcpu_count in Hi;
      simpl in Hi; lia). reflexivity. }
  unfold vmm_scheduler_timer_event. simpl. by rewrite Hnext.
Qed.

(** C6 - Preemption suppresses rescheduling.  While the current vcpu's
    [preempt_count] is above zero, any number of timer ticks in a row
    return and leave every vcpu (its state and [tick_pending] included)
    and [sched] (its current vcpu included) as they were; each tick only
    re-arms the timer. *)
Theorem preemption_suppresses_ticks (n fuel : nat) (w : world) (p : nat) v :
  vmm_manager_vcpu (vcpus w) (vcpu_current (sched w)) = Some p →
  vcpus w !! p = Some v →
  0 < preempt_count v →
  ticks fuel n w
  = Ok (mk_world (vcpus w) (sched w)
          (calls w ++ replicate n vmm_timer_event_restart)).
Proof.
  intros Hcur Hv Hpc. revert w Hcur Hv.
  induction n as [|n IH]; intros w Hcur Hv; simpl.
  - rewrite app_nil_r. by destruct w.
  - unfold vmm_scheduler_timer_event. rewrite Hcur. simpl. rewrite Hv. simpl.
    rewrite bool_decide_eq_false_2 by lia. simpl.
    rewrite IH by done. simpl. by rewrite <-app_assoc.
Qed.

Lemma preemption_suppresses_ticks_witness :
  ticks 0 5 world_guarded
  = Ok (mk_world (vcpus world_guarded) (sched world_guarded)
          (replicate 5 vmm_timer_event_restart)).
Proof.
  apply (preemption_suppresses_ticks 5 0 world_guarded 0
           (mk_vcpu 0 (Some 0%nat) VMM_VCPU_STATE_RUNNING 2 4 0 (Some 7%nat))).
  - reflexivity.
  - reflexivity.
  - reflexivity.
Defined.

Lemma u32_wrap_range x : 0 ≤ u32_wrap x < 2 ^ 32.
Proof. unfold u32_wrap. by apply Z.mod_pos_bound. Qed.

Lemma u32_wrap_small x : 0 ≤ x < 2 ^ 32 → u32_wrap x = x.
Proof. unfold u32_wrap. apply Z.mod_small. Qed.

Lemma run_guard_op_ok o w :
  preempt_counts_ok w →
  ∃ w', run_guard_op o w = Ok w'
    ∧ preempt_counts_ok w' ∧ sched w' = sched w.
Proof.
  intros Hpc.
  assert (∀ p, vmm_scheduler_current_vcpu w = Some p →
            ∃ v, vcpus w !! p = Some v ∧ 0 ≤ preempt_count v) as Hcur.
  { intros p. unfold vmm_scheduler_current_vcpu, vmm_manager_vcpu.
    repeat case_bool_decide; try done. intros [= <-].
    destruct (lookup_lt_is_Some_2 (vcpus w)
                (Z.to_nat (vcpu_current (sched w)))) as [v Hv].
    { unfold vmm_manager_vcpu_count in *. lia. }
    exists v. split; [done|].
    by apply (Forall_lookup_1 _ _ _ _ Hpc Hv). }
  destruct o; simpl.
  - unfold vmm_scheduler_preempt_disable.
    destruct (vmm_scheduler_current_vcpu w) as [p|]; [|by exists w].
    destruct (Hcur p eq_refl) as (v & Hv & Hv0). simpl. rewrite Hv. simpl.
    eexists. split; [done|]. split; [|done].
    apply Forall_alter; [done|]. intros x Hx _. simpl.
    apply u32_wrap_range.
  - unfold vmm_scheduler_preempt_enable.
    destruct (vmm_scheduler_current_vcpu w) as [p|]; [|by exists w].
    destruct (Hcur p eq_refl) as (v & Hv & Hv0). simpl. rewrite Hv. simpl.
    case_bool_decide; [|by exists w].
    eexists. split; [done|]. split; [|done].
    apply Forall_alter; [done|]. intros x Hx _. simpl.
    apply u32_wrap_range.
Qed.

(** C7 - Preemption counter.  On the current vcpu, whose [preempt_count]
    is an unsigned 32-bit counter: [preempt_disable] increments it (the
    new value is the old one plus one, wrapping to zero only from the
    largest value, so it is never negative); [preempt_enable] takes one
    off when the count is above zero and changes nothing at all when it
    is zero.  Hence, from a state in which no [preempt_count] is
    negative, every sequence of [preempt_disable] and [preempt_enable]
    calls runs to completion and ends in such a state. *)
Theorem preempt_count_never_negative :
  (∀ w (p : nat) v,
     vmm_scheduler_current_vcpu w = Some p →
     vcpus w !! p = Some v →
     0 ≤ preempt_count v < 2 ^ 32 →
     (∃ w' v', vmm_scheduler_preempt_disable w = Ok w'
        ∧ vcpus w' !! p = Some v'
        ∧ preempt_count v' = (preempt_count v + 1) mod 2 ^ 32
        ∧ (preempt_count v < 2 ^ 32 - 1 →
           preempt_count v' = preempt_count v + 1)
        ∧ 0 ≤ preempt_count v')
     ∧ (0 < preempt_count v →
        ∃ w' v', vmm_scheduler_preempt_enable w = Ok w'
          ∧ vcpus w' !! p = Some v'
          ∧ preempt_count v' = preempt_count v - 1)
     ∧ (preempt_count v = 0 → vmm_scheduler_preempt_enable w = Ok w))
  ∧ (∀ os w,
       preempt_counts_ok w →
       ∃ w', run_guard_ops os w = Ok w' ∧ preempt_counts_ok w').
Proof.
  split.
  - intros w p v Hcur Hv Hrange.
    unfold vmm_scheduler_preempt_disable, vmm_scheduler_preempt_enable.
    rewrite Hcur. simpl. rewrite Hv. simpl. split; [|split].
    + eexists _, _. split; [done|]. simpl.
      rewrite list_lookup_alter_eq, Hv. simpl. split; [done|]. simpl.
      split; [done|]. split; [|apply u32_wrap_range].
      intros Hmax. apply u32_wrap_small. lia.
    + intros Hpc. rewrite bool_decide_eq_true_2 by lia.
      eexists _, _. split; [done|]. simpl.
      rewrite list_lookup_alter_eq, Hv. simpl. split; [done|]. simpl.
      apply u32_wrap_small. lia.
    + intros Hpc. by rewrite bool_decide_eq_false_2 by lia.
  - induction os as [|o os IH]; intros w Hpc; [by exists w|].
    destruct (run_guard_op_ok o w Hpc) as (w1 & Hop & Hpc1 & _).
    destruct (IH w1 Hpc1) as (w' & Hrun & Hpc').
    exists w'. split; [|done]. simpl. rewrite Hop. done.
Qed.

Lemma preempt_count_never_negative_witness :
  (∃ w' v', vmm_scheduler_preempt_disable world_guarded = Ok w'
     ∧ vcpus w' !! 0%nat = Some v' ∧ preempt_count v' = 3)
  ∧ (∃ w' v', vmm_scheduler_preempt_enable world_guarded = Ok w'
       ∧ vcpus w' !! 0%nat = Some v' ∧ preempt_count v' = 1)
  ∧ vmm_scheduler_preempt_enable world_ABC = Ok world_ABC
  ∧ ∃ w', run_guard_ops [Enable; Disable; Enable; Enable] world_ABC = Ok w'
          ∧ preempt_counts_ok w'.
Proof.
  destruct preempt_count_never_negative as [Hstep Hseq].
  destruct (Hstep world_guarded 0%nat
              (mk_vcpu 0 (Some 0%nat) VMM_VCPU_STATE_RUNNING 2 4 0
                 (Some 7%nat)) eq_refl eq_refl)
    as ((wd & vd & Hd & Hvd & _ & Hinc & _) & Hdec & _).
  { split; [discriminate|reflexivity]. }
  destruct (Hdec eq_refl) as (we & ve & He & Hve & Hone).
  split; [|split; [|split]].
  - exists wd, vd. split; [exact Hd|]. split; [exact Hvd|].
    exact (Hinc eq_refl).
  - exists we, ve. split; [exact He|]. split; [exact Hve|]. exact Hone.
  - destruct (Hstep world_ABC 0%nat vcpu_A eq_refl eq_refl) as (_ & _ & Hzero).
    { split; [discriminate|reflexivity]. }
    exact (Hzero eq_refl).
  - apply Hseq. unfold preempt_counts_ok. simpl.
    repeat constructor; simpl; discriminate.
Defined.

(** C8 - Interrupt gate.  Without a current vcpu the handler returns and
    nothing has changed.  With a current vcpu that is not Running the
    handler is one run of the dispatcher, which returns and never calls
    the vcpu-level interrupt processing.  With a Running current vcpu the
    handler returns having made exactly one call,
    [vmm_vcpu_irq_process], and having changed no vcpu and nothing in
    [sched]. *)
Theorem irq_gate_routing (w : world) (fuel : nat) :
  world_ok w = true →
  (vmm_manager_vcpu (vcpus w) (vcpu_current (sched w)) = None →
     vmm_scheduler_irq_process fuel w = Ok w)
  ∧ (∀ (p : nat) v,
       vmm_manager_vcpu (vcpus w) (vcpu_current (sched w)) = Some p →
       vcpus w !! p = Some v →
       (state v ≠ VMM_VCPU_STATE_RUNNING →
          vmm_scheduler_irq_process fuel w = vmm_scheduler_next fuel w
          ∧ (vmm_manager_vcpu_count (vcpus w) - 1 ≤ Z.of_nat fuel →
             ∃ w', vmm_scheduler_irq_process fuel w = Ok w')
          ∧ ∀ w', vmm_scheduler_irq_process fuel w = Ok w' →
              ∃ l, calls w' = calls w ++ l ∧ vmm_vcpu_irq_process ∉ l)
       ∧ (state v = VMM_VCPU_STATE_RUNNING →
          ∃ w', vmm_scheduler_irq_process fuel w = Ok w'
            ∧ calls w' = calls w ++ [vmm_vcpu_irq_process]
            ∧ vcpus w' = vcpus w
            ∧ sched w' = sched w)).
Proof.
  intros Hok. split.
  - intros Hcur. unfold vmm_scheduler_irq_process. by rewrite Hcur.
  - intros p v Hcur Hv. unfold vmm_scheduler_irq_process.
    rewrite Hcur. simpl. rewrite Hv. simpl. split.
    + intros Hst. rewrite bool_decide_eq_true_2 by done.
      split; [done|]. split.
      * intros Hfuel.
        assert (0 ≤ vcpu_current (sched w)
                < vmm_manager_vcpu_count (vcpus w)) as Hc.
        { unfold vmm_manager_vcpu in Hcur. by case_bool_decide. }
        destruct (vmm_scheduler_next_returns w fuel Hok ltac:(lia) Hfuel
                    ltac:(by left)) as (d & w' & _ & _ & _ & Hnext & _).
        by exists w'.
      * intros w' Hnext.
        destruct (vmm_scheduler_next_calls _ _ _ Hok Hnext) as (l & -> & Hl).
        exists l. split; [done|]. intros Hin. rewrite forallb_forall in Hl.
        apply list_elem_of_In in Hin. by apply Hl in Hin.
    + intros Hst. rewrite bool_decide_eq_false_2 by (by intros Hne).
      by eexists.
Qed.

Lemma irq_gate_routing_witness :
  vmm_scheduler_irq_process 2 world_boot = Ok world_boot
  ∧ (∃ w', vmm_scheduler_irq_process 2 world_ABC = Ok w'
       ∧ calls w' = [vmm_vcpu_irq_process]
       ∧ vcpus w' = vcpus world_ABC
       ∧ sched w' = sched world_ABC)
  ∧ (∃ w', vmm_scheduler_irq_process 1 world_paused = Ok w')
  ∧ vmm_scheduler_irq_process 1 world_paused
    = vmm_scheduler_next 1 world_paused.
Proof.
  split; [|split; [|split]].
  - exact (proj1 (irq_gate_routing world_boot 2 eq_refl) eq_refl).
  - destruct (proj2 (irq_gate_routing world_ABC 2 eq_refl) 0%nat vcpu_A
                eq_refl eq_refl) as [_ Hrun].
    exact (Hrun eq_refl).
  - destruct (proj2 (irq_gate_routing world_paused 1 eq_refl) 1%nat
                (mk_vcpu 1 (Some 0%nat) VMM_VCPU_STATE_PAUSED 0 5 2 None)
                eq_refl eq_refl) as [Hnot _].
    destruct (Hnot ltac:(discriminate)) as (_ & Hret & _).
    apply Hret. vm_compute. discriminate.
  - destruct (proj2 (irq_gate_routing world_paused 1 eq_refl) 1%nat
                (mk_vcpu 1 (Some 0%nat) VMM_VCPU_STATE_PAUSED 0 5 2 None)
                eq_refl eq_refl) as [Hnot _].
    exact (proj1 (Hnot ltac:(discriminate))).
Defined.

(** C9 - Initialisation.  [vmm_scheduler_init] first clears [sched] and
    sets its current vcpu to "none", and only then asks for the timer
    event.  When the event cannot be created it returns the failure code,
    [sched] is the cleared one with current "none" and no event, and the
    timer has not been started.  Otherwise it stores the event, starts it
    with the tick period of the platform and returns success.  The vcpus
    are not touched. *)
Theorem init_error_handling (w : world) (tick_nsecs : Z) :
  vmm_scheduler_init None tick_nsecs w
  = (VMM_EFAIL,
     mk_world (vcpus w) (mk_sched (-1) None false)
       (calls w ++ [vmm_timer_event_create]))
  ∧ ∀ h,
      vmm_scheduler_init (Some h) tick_nsecs w
      = (VMM_OK,
         mk_world (vcpus w) (mk_sched (-1) (Some h) false)
           (calls w ++ [vmm_timer_event_create;
                        vmm_timer_event_start h tick_nsecs])).
Proof.
  split; [done|]. intros h. unfold vmm_scheduler_init, emit. simpl.
  by rewrite <-app_assoc.
Qed.

(** * Further properties of the scheduler *)

(** ** What a returning dispatch has done *)

Lemma scheduler_next_loop_stops m current fuel : ∀ next r,
  scheduler_next_loop fuel m current next = Ok r →
  search_stops m current r = true.
Proof.
  induction fuel as [|fuel IH]; intros next r Hr;
    (destruct (decide (0 ≤ next < vmm_manager_vcpu_count m)) as [Hn|Hn];
     [rewrite scheduler_next_loop_unfold in Hr by done
     |simpl in Hr; by rewrite manager_vcpu_out_of_range in Hr by done]);
    destruct (search_stops m current next) eqn:Hs; try done;
    try (by simplify_eq).
  by eapply IH.
Qed.

Lemma scheduler_next_pick_stops fuel w r :
  scheduler_next_pick fuel w = Ok r →
  search_stops (vcpus w) (vcpu_current (sched w)) r = true.
Proof.
  unfold scheduler_next_pick.
  destruct (match vmm_manager_vcpu _ _ with Some _ => _ | None => _ end);
    simpl; [|done..].
  case_bool_decide; [done|]. apply scheduler_next_loop_stops.
Qed.

Lemma vmm_scheduler_next_inv fuel w w' :
  world_ok w = true →
  vmm_scheduler_next fuel w = Ok w' →
  ∃ nxt, 0 ≤ nxt < vmm_manager_vcpu_count (vcpus w)
    ∧ scheduler_next_pick fuel w = Ok nxt
    ∧ dispatch_result w nxt w'.
Proof.
  intros Hok Hnext.
  destruct (scheduler_next_pick fuel w) as [nxt| |] eqn:Hpick;
    [|by unfold vmm_scheduler_next in Hnext; rewrite Hpick in Hnext..].
  pose proof (scheduler_next_pick_in_range _ _ _ Hpick) as Hn.
  destruct (vmm_scheduler_next_effect fuel w nxt Hok Hn Hpick)
    as (w1 & Hnext1 & Hres).
  rewrite Hnext in Hnext1. simplify_eq. by exists nxt.
Qed.

Lemma scheduler_next_loop_no_fault m current fuel : ∀ next,
  0 < vmm_manager_vcpu_count m →
  0 ≤ next < vmm_manager_vcpu_count m →
  scheduler_next_loop fuel m current next ≠ Fault.
Proof.
  induction fuel as [|fuel IH]; intros next HN Hn;
    rewrite scheduler_next_loop_unfold by done;
    destruct (search_stops m current next); try done.
  apply IH; [done|]. rewrite Z.rem_mod_nonneg by lia.
  by apply Z.mod_pos_bound.
Qed.

Lemma vmm_scheduler_next_no_fault fuel w :
  world_ok w = true →
  0 < vmm_manager_vcpu_count (vcpus w) →
  vmm_scheduler_next fuel w ≠ Fault.
Proof.
  intros Hok HN.
  destruct (scheduler_next_pick fuel w) as [nxt| |] eqn:Hpick.
  - pose proof (scheduler_next_pick_in_range _ _ _ Hpick) as Hn.
    destruct (vmm_scheduler_next_effect fuel w nxt Hok Hn Hpick)
      as (w1 & -> & _). done.
  - unfold vmm_scheduler_next. by rewrite Hpick.
  - exfalso. revert Hpick. unfold scheduler_next_pick.
    assert (∀ x, x = vcpu_current (sched w) →
      (if bool_decide (vmm_manager_vcpu_count (vcpus w) = 0) then Fault
       else scheduler_next_loop fuel (vcpus w) (vcpu_current (sched w))
              (Z.rem (x + 1) (vmm_manager_vcpu_count (vcpus w)))) ≠ Fault)
      as Hgo.
    { intros x ->. rewrite bool_decide_eq_false_2 by lia.
      pose proof (world_ok_current w Hok).
      apply scheduler_next_loop_no_fault; [done|].
      rewrite Z.rem_mod_nonneg by lia. by apply Z.mod_pos_bound. }
    destruct (world_ok_current w Hok) as [Hc|Hc].
    + rewrite manager_vcpu_out_of_range by lia. simpl. apply Hgo. lia.
    + destruct (deref_in_range _ _ Hc) as (v & Hv & Hd).
      rewrite manager_vcpu_in_range by done.
      rewrite manager_vcpu_in_range in Hd by done. rewrite Hd. simpl.
      apply Hgo. rewrite (world_ok_num _ _ _ Hok Hv). lia.
Qed.

(** ** Accessors *)

Lemma accessors_safe_aux (w : world) :
  (∀ p : nat, vmm_scheduler_current_vcpu w = Some p →
     0 ≤ vcpu_current (sched w) < vmm_manager_vcpu_count (vcpus w)
     ∧ p = Z.to_nat (vcpu_current (sched w)))
  ∧ (vmm_scheduler_current_vcpu w = None →
     vmm_scheduler_current_guest w = Ok None)
  ∧ (∀ p : nat, vmm_scheduler_current_vcpu w = Some p →
     ∃ v, vcpus w !! p = Some v).
Proof.
  split; [|split].
  - intros p. unfold vmm_scheduler_current_vcpu, vmm_manager_vcpu.
    repeat case_bool_decide; try done. by intros [= <-].
  - intros Hcur. unfold vmm_scheduler_current_guest. by rewrite Hcur.
  - intros p. unfold vmm_scheduler_current_vcpu, vmm_manager_vcpu.
    repeat case_bool_decide; try done. intros [= <-].
    apply lookup_lt_is_Some_2. unfold vmm_manager_vcpu_count in *. lia.
Qed.

(** X2 - Initialisation forgets the current vcpu.  Whatever the state
    before and whether or not the timer event could be created, after
    [vmm_scheduler_init] there is no current vcpu and no current guest,
    the preemption guard does nothing, an interrupt is not routed, and no
    vcpu has been touched - a vcpu that was Running stays marked
    Running. *)
Theorem init_forgets_current (created : option nat) (tick_nsecs : Z)
    (w : world) (fuel : nat) :
  let w' := (vmm_scheduler_init created tick_nsecs w).2 in
  vcpus w' = vcpus w
  ∧ vmm_scheduler_current_vcpu w' = None
  ∧ vmm_scheduler_current_guest w' = Ok None
  ∧ vmm_scheduler_preempt_disable w' = Ok w'
  ∧ vmm_scheduler_preempt_enable w' = Ok w'
  ∧ vmm_scheduler_irq_process fuel w' = Ok w'.
Proof.
  intros w'. subst w'.
  assert (vcpu_current (sched (vmm_scheduler_init created tick_nsecs w).2)
          = -1) as Hcur by by destruct created.
  assert (vmm_scheduler_current_vcpu
            (vmm_scheduler_init created tick_nsecs w).2 = None) as Hnone.
  { unfold vmm_scheduler_current_vcpu. rewrite Hcur. done. }
  split; [by destruct created|]. split; [done|].
  unfold vmm_scheduler_current_guest, vmm_scheduler_preempt_disable,
    vmm_scheduler_preempt_enable, vmm_scheduler_irq_process.
  rewrite Hnone, Hcur. rewrite manager_vcpu_out_of_range by lia. done.
Qed.

(** ** The dispatcher *)

(** X3 - When the dispatcher returns.  In a well-formed state with at
    least one vcpu, the dispatcher returns exactly when there is a
    current vcpu or some vcpu is Ready; one lap of the search (N - 1
    turns of the loop) is then enough, and it never runs into undefined
    behaviour. *)
Theorem dispatcher_returns_iff (w : world) :
  world_ok w = true →
  0 < vmm_manager_vcpu_count (vcpus w) →
  ((∃ fuel w', vmm_scheduler_next fuel w = Ok w') ↔
     (0 ≤ vcpu_current (sched w) < vmm_manager_vcpu_count (vcpus w)
      ∨ ∃ i, is_ready (vcpus w) i = true))
  ∧ (∀ fuel w', vmm_scheduler_next fuel w = Ok w' →
       ∃ w'', vmm_scheduler_next
                (Z.to_nat (vmm_manager_vcpu_count (vcpus w) - 1)) w = Ok w'')
  ∧ (∀ fuel, vmm_scheduler_next fuel w ≠ Fault).
Proof.
  intros Hok HN.
  assert (∀ fuel w', vmm_scheduler_next fuel w = Ok w' →
            0 ≤ vcpu_current (sched w) < vmm_manager_vcpu_count (vcpus w)
            ∨ ∃ i, is_ready (vcpus w) i = true) as Hback.
  { intros fuel w' Hnext.
    destruct (vmm_scheduler_next_inv _ _ _ Hok Hnext) as (nxt & Hn & Hpick & _).
    apply scheduler_next_pick_stops in Hpick. unfold search_stops in Hpick.
    apply orb_true_iff in Hpick as [Hr|Hc]; [right; by exists nxt|left].
    apply bool_decide_eq_true in Hc. by rewrite <-Hc. }
  assert ((0 ≤ vcpu_current (sched w) < vmm_manager_vcpu_count (vcpus w)
           ∨ ∃ i, is_ready (vcpus w) i = true) →
          ∃ w', vmm_scheduler_next
                  (Z.to_nat (vmm_manager_vcpu_count (vcpus w) - 1)) w = Ok w')
    as Hforth.
  { intros Hsome.
    destruct (vmm_scheduler_next_returns w
                (Z.to_nat (vmm_manager_vcpu_count (vcpus w) - 1)) Hok HN
                ltac:(lia) Hsome) as (d & w' & _ & _ & _ & Hnext & _).
    by exists w'. }
  split; [|split].
  - split; [intros (fuel & w' & Hnext); by eapply Hback|].
    intros Hsome. destruct (Hforth Hsome) as [w' Hnext]. by eexists _, w'.
  - intros fuel w' Hnext. eapply Hforth, Hback, Hnext.
  - intros fuel. by apply vmm_scheduler_next_no_fault.
Qed.

Lemma dispatcher_returns_iff_witness :
  (∃ fuel w', vmm_scheduler_next fuel world_ABC = Ok w')
  ∧ ¬ (∃ fuel w', vmm_scheduler_next fuel world_boot = Ok w').
Proof.
  split.
  - apply (proj1 (dispatcher_returns_iff world_ABC eq_refl eq_refl)).
    left. split; [vm_compute; discriminate|reflexivity].
  - intros Hret.
    apply (proj1 (dispatcher_returns_iff world_boot eq_refl eq_refl)) in Hret.
    destruct Hret as [[Hc _]|[i Hi]].
    + apply Hc. reflexivity.
    + pose proof (is_ready_in_range _ _ Hi) as Hr.
      assert (i = 0) as -> by (unfold vmm_manager_vcpu_count in Hr;
        simpl in Hr; lia). discriminate Hi.
Defined.

(** X4 - No vcpus.  With an empty vcpu array the dispatcher divides by
    the vcpu count, zero: it runs into undefined behaviour, and so does
    the timer tick, which finds no current vcpu and dispatches.  The
    interrupt gate, which finds no current vcpu either, returns without
    doing anything. *)
Theorem empty_registry (w : world) (fuel : nat) :
  vcpus w = [] →
  vmm_scheduler_next fuel w = Fault
  ∧ vmm_scheduler_timer_event fuel w = Fault
  ∧ vmm_scheduler_irq_process fuel w = Ok w.
Proof.
  intros Hnil.
  assert (vmm_manager_vcpu (vcpus w) (vcpu_current (sched w)) = None) as Hcur.
  { apply manager_vcpu_out_of_range. rewrite Hnil.
    unfold vmm_manager_vcpu_count. simpl. lia. }
  assert (vmm_scheduler_next fuel w = Fault) as Hnext.
  { unfold vmm_scheduler_next, scheduler_next_pick. rewrite Hcur. simpl.
    by rewrite Hnil. }
  split; [done|]. unfold vmm_scheduler_timer_event, vmm_scheduler_irq_process.
  by rewrite Hcur, Hnext.
Qed.

Lemma empty_registry_witness :
  vmm_scheduler_next 3 (mk_world [] (mk_sched (-1) (Some 0%nat) false) [])
  = Fault
  ∧ vmm_scheduler_timer_event 3
      (mk_world [] (mk_sched (-1) (Some 0%nat) false) []) = Fault
  ∧ vmm_scheduler_irq_process 3
      (mk_world [] (mk_sched (-1) (Some 0%nat) false) [])
    = Ok (mk_world [] (mk_sched (-1) (Some 0%nat) false) []).
Proof.
  apply (empty_registry (mk_world [] (mk_sched (-1) (Some 0%nat) false) []) 3).
  reflexivity.
Defined.

Lemma guest_dispatched current nxt i v : guest (dispatched current nxt i v) = guest v.
Proof. unfold dispatched. repeat case_match; done. Qed.

Lemma tick_func_dispatched current nxt i v :
  tick_func (dispatched current nxt i v) = tick_func v.
Proof. unfold dispatched. repeat case_match; done. Qed.

(** X5 - What the dispatcher leaves alone.  A dispatch that returns
    keeps the number of vcpus, the timer event and the lock; of every
    vcpu it keeps [num], [guest], [preempt_count], [tick_count] and the
    tick callback; and a vcpu that is neither the one current before nor
    the one current after is not changed at all. *)
Theorem dispatcher_frame (w w' : world) (fuel : nat) :
  world_ok w = true →
  vmm_scheduler_next fuel w = Ok w' →
  length (vcpus w') = length (vcpus w)
  ∧ ev (sched w') = ev (sched w)
  ∧ lock (sched w') = lock (sched w)
  ∧ ∀ (i : nat) v, vcpus w !! i = Some v →
      ∃ v', vcpus w' !! i = Some v'
        ∧ num v' = num v
        ∧ guest v' = guest v
        ∧ preempt_count v' = preempt_count v
        ∧ tick_count v' = tick_count v
        ∧ tick_func v' = tick_func v
        ∧ (Z.of_nat i ≠ vcpu_current (sched w) →
           Z.of_nat i ≠ vcpu_current (sched w') → v' = v).
Proof.
  intros Hok Hnext.
  destruct (vmm_scheduler_next_inv _ _ _ Hok Hnext)
    as (nxt & Hn & _ & Hs & _ & Hlen & Hlook).
  rewrite Hs. simpl. split; [done|]. split; [done|]. split; [done|].
  intros i v Hv. eexists. split; [by apply Hlook|].
  rewrite num_dispatched, guest_dispatched, preempt_count_dispatched,
    tick_count_dispatched, tick_func_dispatched.
  repeat (split; [done|]). intros Hc Hn'. unfold dispatched.
  by rewrite !bool_decide_eq_false_2 by done.
Qed.

Lemma dispatcher_frame_witness :
  ∃ w', vmm_scheduler_next 2 world_ABC = Ok w'
    ∧ length (vcpus w') = 3%nat
    ∧ vcpus w' !! 2%nat = Some vcpu_C.
Proof.
  destruct (vmm_scheduler_next 2 world_ABC) as [w'| |] eqn:Hnext;
    [|vm_compute in Hnext; discriminate Hnext..].
  exists w'. split; [reflexivity|].
  destruct (dispatcher_frame world_ABC w' 2 eq_refl Hnext)
    as (Hlen & _ & _ & Hlook).
  split; [exact Hlen|].
  destruct (Hlook 2%nat vcpu_C eq_refl) as (v' & Hv' & _ & _ & _ & _ & _ & Hsame).
  rewrite Hv'. f_equal. apply Hsame.
  - discriminate.
  - vm_compute in Hnext. injection Hnext as <-. discriminate.
Defined.

(** ** Invariants *)

Lemma sched_inv_emit c w : sched_inv w → sched_inv (emit c w).
Proof. by intros (? & ? & ?). Qed.

(** A field update that keeps [num] and [state] and leaves a
    [preempt_count] that is not negative keeps the invariant. *)
Lemma sched_inv_store (p : nat) f w :
  (∀ v, num (f v) = num v) →
  (∀ v, state (f v) = state v) →
  (∀ v, vcpus w !! p = Some v → 0 ≤ preempt_count (f v)) →
  sched_inv w → sched_inv (store p f w).
Proof.
  intros Hnum Hstate Hpc (Hok & Hrun & Hcnt). split; [|split].
  - apply world_ok_intro; simpl.
    + intros i v'. rewrite list_lookup_alter. case_decide as Hi.
      * subst i. destruct (vcpus w !! p) as [v|] eqn:Hv; simpl; [|done].
        intros [= <-]. rewrite Hnum. by eapply world_ok_num.
      * by apply world_ok_num.
    + unfold vmm_manager_vcpu_count. rewrite length_alter.
      by apply world_ok_current.
  - intros i v'. simpl. rewrite list_lookup_alter. case_decide as Hi.
    + subst i. destruct (vcpus w !! p) as [v|] eqn:Hv; simpl; [|done].
      intros [= <-]. rewrite Hstate. by apply Hrun.
    + apply Hrun.
  - unfold preempt_counts_ok. simpl. apply Forall_alter; [done|].
    intros v Hv _. by apply Hpc.
Qed.

Lemma sched_inv_dispatch fuel w w' :
  sched_inv w → vmm_scheduler_next fuel w = Ok w' →
  sched_inv w'
  ∧ ∃ v', vcpus w' !! Z.to_nat (vcpu_current (sched w')) = Some v'
          ∧ 0 ≤ vcpu_current (sched w')
          ∧ state v' = VMM_VCPU_STATE_RUNNING.
Proof.
  intros (Hok & Hrun & Hcnt) Hnext.
  destruct (vmm_scheduler_next_inv _ _ _ Hok Hnext) as (nxt & Hn & _ & Hres).
  pose proof (dispatch_result_ok _ _ _ Hok Hn Hres) as Hok'.
  destruct (deref_in_range _ _ Hn) as (vn & Hvn & _).
  pose proof Hres as (Hs & _ & _ & Hlook).
  split; [split; [done|split]|].
  - intros i v' Hv' Hst.
    destruct (dispatch_result_lookup _ _ _ _ _ Hres Hv') as (v & Hv & ->).
    rewrite Hs. simpl. unfold dispatched in Hst.
    case_bool_decide as Hi; [done|].
    destruct (bool_decide (Z.of_nat i = vcpu_current (sched w))) eqn:Hc;
      simpl in Hst.
    + case_bool_decide; [done|contradiction].
    + apply bool_decide_eq_false in Hc. by apply (Hrun _ _ Hv) in Hst.
  - apply Forall_lookup. intros i v' Hv'.
    destruct (dispatch_result_lookup _ _ _ _ _ Hres Hv') as (v & Hv & ->).
    rewrite preempt_count_dispatched.
    by apply (Forall_lookup_1 _ _ _ _ Hcnt Hv).
  - rewrite Hs. simpl. eexists. split; [by apply Hlook|]. split; [lia|].
    unfold dispatched. by rewrite bool_decide_eq_true_2 by lia.
Qed.

Lemma sched_inv_entry fuel e w w' :
  sched_inv w → run_entry fuel e w = Ok w' → sched_inv w'.
Proof.
  intros Hinv. destruct e; simpl.
  - (* timer tick *)
    unfold vmm_scheduler_timer_event.
    destruct (vmm_manager_vcpu _ _) as [p|]; simpl.
    + destruct (vcpus w !! p) as [v|] eqn:Hv; simpl; [|done].
      case_bool_decide; [|by intros [= <-]; apply sched_inv_emit].
      case_bool_decide.
      * destruct (vmm_scheduler_next fuel w) as [w1| |] eqn:Hnext;
          simpl; [|done..].
        intros [= <-]. by apply sched_inv_emit, (sched_inv_dispatch fuel w).
      * rewrite list_lookup_alter_eq, Hv. simpl.
        assert (sched_inv (store p (set_tick_pending (tick_pending v - 1)) w))
          as Hinv1.
        { apply sched_inv_store; [done|done| |done].
          intros v0 Hv0. simpl. destruct Hinv as (_ & _ & Hcnt).
          by apply (Forall_lookup_1 _ _ _ _ Hcnt Hv0). }
        destruct (tick_func v); [case_bool_decide|]; simpl;
          intros [= <-]; by repeat apply sched_inv_emit.
    + destruct (vmm_scheduler_next fuel w) as [w1| |] eqn:Hnext;
        simpl; [|done..].
      intros [= <-]. by apply sched_inv_emit, (sched_inv_dispatch fuel w).
  - (* interrupt entry *)
    unfold vmm_scheduler_irq_process.
    destruct (vmm_manager_vcpu _ _) as [p|]; simpl; [|by intros [= <-]].
    destruct (vcpus w !! p) as [v|] eqn:Hv; simpl; [|done].
    case_bool_decide.
    + intros Hnext. by apply (sched_inv_dispatch fuel w).
    + intros [= <-]. by apply sched_inv_emit.
  - (* preempt_disable *)
    unfold vmm_scheduler_preempt_disable.
    destruct (vmm_scheduler_current_vcpu w) as [p|]; [|by intros [= <-]].
    simpl. destruct (vcpus w !! p) as [v|] eqn:Hv; simpl; [|done].
    intros [= <-]. apply sched_inv_store; [done|done| |done].
    intros v0 Hv0. simpl. apply u32_wrap_range.
  - (* preempt_enable *)
    unfold vmm_scheduler_preempt_enable.
    destruct (vmm_scheduler_current_vcpu w) as [p|]; [|by intros [= <-]].
    simpl. destruct (vcpus w !! p) as [v|] eqn:Hv; simpl; [|done].
    case_bool_decide; [|by intros [= <-]].
    intros [= <-]. apply sched_inv_store; [done|done| |done].
    intros v0 Hv0. simpl. apply u32_wrap_range.
Qed.

(** X6 - Invariants of the running scheduler.  From a well-formed state
    in which only the current vcpu may be Running and no [preempt_count]
    is negative, every sequence of timer ticks, interrupt entries and
    preemption-guard calls that runs to completion ends in such a state:
    at most one vcpu is Running, and it is the current one. *)
Theorem scheduler_invariants (fuel : nat) (es : list entry) (w w' : world) :
  sched_inv w → run_entries fuel es w = Ok w' → sched_inv w'.
Proof.
  revert w. induction es as [|e es IH]; intros w Hinv; simpl;
    [by intros [= <-]|].
  destruct (run_entry fuel e w) as [w1| |] eqn:He; simpl; [|done..].
  apply IH. by eapply sched_inv_entry.
Qed.

Lemma scheduler_invariants_witness :
  ∃ w', run_entries 2 [timer_tick; preempt_disable; timer_tick; irq_entry;
                       preempt_enable; timer_tick; timer_tick] world_ABC
        = Ok w'
        ∧ sched_inv w'.
Proof.
  destruct (run_entries 2 [timer_tick; preempt_disable; timer_tick; irq_entry;
                           preempt_enable; timer_tick; timer_tick] world_ABC)
    as [w'| |] eqn:Hrun; [|vm_compute in Hrun; discriminate Hrun..].
  exists w'. split; [reflexivity|].
  apply (scheduler_invariants 2
           [timer_tick; preempt_disable; timer_tick; irq_entry;
            preempt_enable; timer_tick; timer_tick] world_ABC w');
    [|exact Hrun].
  split; [reflexivity|]. split.
  - intros [|[|[|i]]] v; simpl; intros [= <-]; simpl;
      (reflexivity || discriminate).
  - unfold preempt_counts_ok. simpl. repeat constructor; simpl; discriminate.
Defined.

(** ** How the entry points compose *)



(** X8 - The first tick after initialisation.  After a successful
    [vmm_scheduler_init], the first timer tick returns as soon as some
    vcpu is Ready: it makes the Ready vcpu of least index current, with a
    register switch that has no source, sets it Running with a full
    quantum, and re-arms the timer; no other vcpu is touched. *)
Theorem boot_tick_selects_first_ready (w : world) (h : nat) (tick_nsecs : Z)
    (fuel : nat) (i0 : nat) v0 :
  world_ok w = true →
  vmm_manager_vcpu_count (vcpus w) - 1 ≤ Z.of_nat fuel →
  vcpus w !! i0 = Some v0 →
  state v0 = VMM_VCPU_STATE_READY →
  (∀ j, 0 ≤ j < Z.of_nat i0 → is_ready (vcpus w) j = false) →
  ∃ w', vmm_scheduler_timer_event fuel
          (vmm_scheduler_init (Some h) tick_nsecs w).2 = Ok w'
    ∧ vcpu_current (sched w') = Z.of_nat i0
    ∧ vcpus w' !! i0
      = Some (set_state VMM_VCPU_STATE_RUNNING
                (set_tick_pending (tick_count v0) v0))
    ∧ (∀ i : nat, i ≠ i0 → vcpus w' !! i = vcpus w !! i)
    ∧ calls w' = calls w ++
        [vmm_timer_event_create; vmm_timer_event_start h tick_nsecs;
         vmm_vcpu_regs_switch None (Some i0); vmm_timer_event_restart].
Proof.
  intros Hok Hfuel Hv0 Hst Hlow.
  set (w0 := (vmm_scheduler_init (Some h) tick_nsecs w).2).
  assert (vcpus w0 = vcpus w) as Hvc by done.
  assert (vcpu_current (sched w0) = -1) as Hcur by done.
  assert (world_ok w0 = true) as Hok0.
  { apply world_ok_intro; [|by left]. intros i v. rewrite Hvc.
    by apply world_ok_num. }
  pose proof (lookup_lt_Some _ _ _ Hv0) as Hi0.
  assert (0 < vmm_manager_vcpu_count (vcpus w0)) as HN
    by (rewrite Hvc; unfold vmm_manager_vcpu_count; lia).
  assert (∀ i, 0 ≤ i < vmm_manager_vcpu_count (vcpus w0) →
            (vcpu_current (sched w0) + 1 + i)
              mod vmm_manager_vcpu_count (vcpus w0) = i) as Hmod.
  { intros i Hi. rewrite Hcur. replace (-1 + 1 + i) with i by lia.
    by apply Z.mod_small. }
  assert (Z.of_nat i0 < vmm_manager_vcpu_count (vcpus w0)) as Hi0'
    by (rewrite Hvc; unfold vmm_manager_vcpu_count; lia).
  destruct (vmm_scheduler_next_at w0 i0 fuel Hok0 HN) as (w1 & Hnext & Hres).
  { intros i Hi. rewrite Hmod by lia. unfold search_stops.
    rewrite Hvc, Hlow by done. rewrite Hcur.
    by rewrite bool_decide_eq_false_2 by lia. }
  { rewrite Hmod by lia. unfold search_stops. rewrite Hvc.
    rewrite (is_ready_lookup _ _ v0) by (rewrite ?Nat2Z.id; done || lia).
    by rewrite bool_decide_eq_true_2. }
  { rewrite Hvc in *. lia. }
  rewrite Hmod in Hres by lia. destruct Hres as (Hs & Hcalls & Hlen & Hlook).
  exists (emit vmm_timer_event_restart w1). split; [|split; [|split; [|split]]].
  - unfold vmm_scheduler_timer_event.
    rewrite manager_vcpu_out_of_range by (rewrite Hcur; lia).
    by rewrite Hnext.
  - simpl. by rewrite Hs.
  - simpl. rewrite Hvc in Hlook. rewrite (Hlook _ _ Hv0). unfold dispatched.
    by rewrite bool_decide_eq_true_2.
  - intros i Hi. simpl. rewrite Hvc in Hlook, Hlen.
    destruct (vcpus w !! i) as [v|] eqn:Hv.
    + rewrite (Hlook _ _ Hv). unfold dispatched. rewrite Hcur.
      by rewrite !bool_decide_eq_false_2 by lia.
    + apply lookup_ge_None in Hv. apply lookup_ge_None. lia.
  - simpl. rewrite Hcalls. unfold switch_calls.
    rewrite manager_vcpu_out_of_range by (rewrite Hcur; lia).
    rewrite Nat2Z.id. simpl. by rewrite <-!app_assoc.
Qed.

Lemma boot_tick_selects_first_ready_witness :
  ∃ w', vmm_scheduler_timer_event 2
          (vmm_scheduler_init (Some 4%nat) 1000 world_cold).2 = Ok w'
    ∧ vcpu_current (sched w') = 1
    ∧ vcpus w' !! 1%nat
      = Some (mk_vcpu 1 None VMM_VCPU_STATE_RUNNING 0 5 5 None)
    ∧ (∀ i : nat, i ≠ 1%nat → vcpus w' !! i = vcpus world_cold !! i)
    ∧ calls w' =
        [vmm_timer_event_create; vmm_timer_event_start 4 1000;
         vmm_vcpu_regs_switch None (Some 1%nat); vmm_timer_event_restart].
Proof.
  apply (boot_tick_selects_first_ready world_cold 4 1000 2 1
           (mk_vcpu 1 None VMM_VCPU_STATE_READY 0 5 0 None)).
  - reflexivity.
  - vm_compute. discriminate.
  - reflexivity.
  - reflexivity.
  - intros j Hj. assert (j = 0) as -> by lia. reflexivity.
Defined.

(** ** The preemption guard around timer ticks *)

Lemma run_entries_app fuel es1 : ∀ es2 w,
  run_entries fuel (es1 ++ es2) w
  = w1 ← run_entries fuel es1 w; run_entries fuel es2 w1.
Proof.
  induction es1 as [|e es1 IH]; intros es2 w; simpl; [done|].
  destruct (run_entry fuel e w); simpl; [apply IH|done..].
Qed.

Lemma alter_alter_field {A} (f g : A → A) (l : list A) (p : nat) :
  (∀ x, f (g x) = f x) → alter f p (alter g p l) = alter f p l.
Proof.
  intros Hfg. rewrite list_alter_alter_eq.
  apply list_alter_ext; [|done]. intros x _. apply Hfg.
Qed.

Lemma alter_same_field {A} (f : A → A) (l : list A) (p : nat) x :
  l !! p = Some x → f x = x → alter f p l = l.
Proof.
  intros Hx Hf. apply list_eq. intros i. rewrite list_lookup_alter.
  case_decide as Hi; [|done]. subst i. rewrite Hx. simpl. by rewrite Hf.
Qed.

Lemma current_vcpu_of_manager w (p : nat) :
  vmm_manager_vcpu (vcpus w) (vcpu_current (sched w)) = Some p →
  vmm_scheduler_current_vcpu w = Some p.
Proof.
  intros Hcur. unfold vmm_scheduler_current_vcpu. rewrite Hcur.
  unfold vmm_manager_vcpu in Hcur. case_bool_decide; [|done].
  by rewrite bool_decide_eq_true_2 by lia.
Qed.

Section guarded.
Variable fuel : nat.
Variable m : list vmm_vcpu.
Variable s : vmm_scheduler_ctrl.
Variable p : nat.
Variable v : vmm_vcpu.
Hypothesis Hcur : vmm_manager_vcpu m (vcpu_current s) = Some p.
Hypothesis Hv : m !! p = Some v.

(** The state with [c] as the current vcpu's [preempt_count] and [l] as
    the log of calls. *)
Local Abbreviation guarded_world c l :=
  (mk_world (alter (set_preempt_count c) p m) s l).

Lemma guarded_world_manager c l :
  vmm_manager_vcpu (vcpus (guarded_world c l))
    (vcpu_current (sched (guarded_world c l))) = Some p.
Proof.
  simpl. unfold vmm_manager_vcpu, vmm_manager_vcpu_count in *.
  by rewrite length_alter.
Qed.

Lemma guarded_world_lookup c l :
  vcpus (guarded_world c l) !! p = Some (set_preempt_count c v).
Proof. simpl. by rewrite list_lookup_alter_eq, Hv. Qed.

Lemma run_disables (n : nat) : ∀ c l,
  0 ≤ c → c + Z.of_nat n < 2 ^ 32 →
  run_entries fuel (replicate n preempt_disable) (guarded_world c l)
  = Ok (guarded_world (c + Z.of_nat n) l).
Proof.
  induction n as [|n IH]; intros c l Hc Hmax; simpl.
  - by rewrite Z.add_0_r.
  - unfold vmm_scheduler_preempt_disable.
    rewrite (current_vcpu_of_manager _ p) by apply guarded_world_manager.
    simpl. rewrite list_lookup_alter_eq, Hv. simpl. unfold store. simpl.
    rewrite alter_alter_field by done. rewrite u32_wrap_small by lia.
    replace (c + Z.of_nat (S n)) with (c + 1 + Z.of_nat n) by lia.
    apply IH; lia.
Qed.

Lemma run_enables (n : nat) : ∀ c l,
  Z.of_nat n ≤ c → c < 2 ^ 32 →
  run_entries fuel (replicate n preempt_enable) (guarded_world c l)
  = Ok (guarded_world (c - Z.of_nat n) l).
Proof.
  induction n as [|n IH]; intros c l Hc Hmax; simpl.
  - by rewrite Z.sub_0_r.
  - unfold vmm_scheduler_preempt_enable.
    rewrite (current_vcpu_of_manager _ p) by apply guarded_world_manager.
    simpl. rewrite list_lookup_alter_eq, Hv. simpl.
    rewrite bool_decide_eq_true_2 by lia. simpl. unfold store. simpl.
    rewrite alter_alter_field by done. rewrite u32_wrap_small by lia.
    replace (c - Z.of_nat (S n)) with (c - 1 - Z.of_nat n) by lia.
    apply IH; lia.
Qed.

Lemma run_ticks_guarded (k : nat) : ∀ c l,
  0 < c →
  run_entries fuel (replicate k timer_tick) (guarded_world c l)
  = Ok (guarded_world c (l ++ replicate k vmm_timer_event_restart)).
Proof.
  induction k as [|k IH]; intros c l Hc; simpl.
  - by rewrite app_nil_r.
  - unfold vmm_scheduler_timer_event.
    rewrite guarded_world_manager. simpl.
    rewrite list_lookup_alter_eq, Hv. simpl.
    rewrite bool_decide_eq_false_2 by lia. simpl. unfold emit. simpl.
    rewrite IH by done. by rewrite <-app_assoc.
Qed.
End guarded.

(** X9 - The preemption guard nests, and ticks do not see through it.
    With a current vcpu whose [preempt_count] is not negative and stays
    below 2^32 through [n] more nested sections (so that the 32-bit
    counter does not wrap), [n] calls of [preempt_disable], then [k]
    timer ticks, then [n] calls of [preempt_enable] return and leave
    every vcpu and [sched] exactly as they were; all the ticks did was to
    re-arm the timer [k] times.  ([n] is at least one, or there is no
    tick.) *)
Theorem guarded_section_transparent (fuel n k : nat) (w : world)
    (p : nat) v :
  vmm_manager_vcpu (vcpus w) (vcpu_current (sched w)) = Some p →
  vcpus w !! p = Some v →
  0 ≤ preempt_count v →
  preempt_count v + Z.of_nat n < 2 ^ 32 →
  (0 < n ∨ k = 0)%nat →
  run_entries fuel
    (replicate n preempt_disable ++ replicate k timer_tick
     ++ replicate n preempt_enable) w
  = Ok (mk_world (vcpus w) (sched w)
          (calls w ++ replicate k vmm_timer_event_restart)).
Proof.
  intros Hcur Hv Hpc Hmax Hnk.
  assert (∀ l, mk_world (vcpus w) (sched w) l
               = mk_world (alter (set_preempt_count (preempt_count v)) p
                             (vcpus w)) (sched w) l) as Hw.
  { intros l. f_equal. symmetry. apply (alter_same_field _ _ _ v); [done|].
    by destruct v. }
  rewrite run_entries_app.
  replace w with (mk_world (vcpus w) (sched w) (calls w)) at 1
    by by destruct w.
  rewrite (Hw (calls w)), (run_disables fuel _ _ p v Hcur Hv) by lia. simpl.
  rewrite run_entries_app.
  destruct Hnk as [Hn| ->].
  - rewrite (run_ticks_guarded fuel _ _ p v Hcur Hv) by lia. simpl.
    rewrite (run_enables fuel _ _ p v Hcur Hv) by lia. rewrite Hw.
    by replace (preempt_count v + Z.of_nat n - Z.of_nat n)
      with (preempt_count v) by lia.
  - simpl. rewrite (run_enables fuel _ _ p v Hcur Hv) by lia.
    rewrite Hw, app_nil_r.
    by replace (preempt_count v + Z.of_nat n - Z.of_nat n)
      with (preempt_count v) by lia.
Qed.

Lemma guarded_section_transparent_witness :
  run_entries 2
    (replicate 3 preempt_disable ++ replicate 4 timer_tick
     ++ replicate 3 preempt_enable) world_ABC
  = Ok (mk_world (vcpus world_ABC) (sched world_ABC)
          (replicate 4 vmm_timer_event_restart)).
Proof.
  apply (guarded_section_transparent 2 3 4 world_ABC 0 vcpu_A).
  - reflexivity.
  - reflexivity.
  - discriminate.
  - reflexivity.
  - left. repeat constructor.
Defined.

Lemma run_guard_op_frame o w :
  ∃ w', run_guard_op o w = Ok w'
    ∧ sched w' = sched w
    ∧ calls w' = calls w
    ∧ length (vcpus w') = length (vcpus w)
    ∧ ∀ (i : nat),
        (vmm_scheduler_current_vcpu w ≠ Some i →
           vcpus w' !! i = vcpus w !! i)
        ∧ ∀ v, vcpus w !! i = Some v →
            ∃ c, vcpus w' !! i = Some (set_preempt_count c v).
Proof.
  assert (∀ v, v = set_preempt_count (preempt_count v) v) as Heta
    by by intros [].
  assert (∀ r, r = Ok w →
            ∃ w', r = Ok w' ∧ sched w' = sched w ∧ calls w' = calls w
              ∧ length (vcpus w') = length (vcpus w)
              ∧ ∀ (i : nat),
                  (vmm_scheduler_current_vcpu w ≠ Some i →
                     vcpus w' !! i = vcpus w !! i)
                  ∧ ∀ v, vcpus w !! i = Some v →
                      ∃ c, vcpus w' !! i = Some (set_preempt_count c v))
    as Hid.
  { intros r ->. exists w. repeat split; try done. intros v Hv.
    exists (preempt_count v). by rewrite <-Heta. }
  assert (∀ r p c, vmm_scheduler_current_vcpu w = Some p →
            r = Ok (store p (set_preempt_count c) w) →
            ∃ w', r = Ok w' ∧ sched w' = sched w ∧ calls w' = calls w
              ∧ length (vcpus w') = length (vcpus w)
              ∧ ∀ (i : nat),
                  (vmm_scheduler_current_vcpu w ≠ Some i →
                     vcpus w' !! i = vcpus w !! i)
                  ∧ ∀ v, vcpus w !! i = Some v →
                      ∃ c, vcpus w' !! i = Some (set_preempt_count c v))
    as Hset.
  { intros r p c Hp ->. eexists. split; [done|]. split; [done|].
    split; [done|]. split; [by simpl; rewrite length_alter|].
    intros i. simpl. rewrite list_lookup_alter. split.
    - intros Hi. case_decide; [congruence|done].
    - intros v Hv. case_decide as Hpi.
      + subst i. rewrite Hv. by exists c.
      + exists (preempt_count v). by rewrite <-Heta. }
  destruct o; simpl;
    unfold vmm_scheduler_preempt_disable, vmm_scheduler_preempt_enable;
    (destruct (vmm_scheduler_current_vcpu w) as [p|] eqn:Hp;
     [|by apply Hid]);
    destruct (proj2 (proj2 (accessors_safe_aux w)) p Hp) as (v & Hv);
    simpl; rewrite Hv; simpl.
  - by eapply Hset.
  - case_bool_decide; [by eapply Hset|by apply Hid].
Qed.

(** X10 - What the preemption guard leaves alone.  With the scheduler
    lock free, every sequence of [preempt_disable] and [preempt_enable]
    calls returns, keeps [sched] (so never changes which vcpu is current,
    and leaves the lock free) and the number of vcpus, and changes
    nothing of any vcpu but the [preempt_count] of the current one. *)
Theorem guard_frame (os : list guard_op) (w : world) :
  lock (sched w) = false →
  ∃ w', run_guard_ops os w = Ok w'
    ∧ sched w' = sched w
    ∧ length (vcpus w') = length (vcpus w)
    ∧ ∀ (i : nat),
        (vmm_scheduler_current_vcpu w ≠ Some i →
           vcpus w' !! i = vcpus w !! i)
        ∧ ∀ v, vcpus w !! i = Some v →
            ∃ c, vcpus w' !! i = Some (set_preempt_count c v)
                 ∧ preempt_count (set_preempt_count c v) = c
                 ∧ state (set_preempt_count c v) = state v
                 ∧ tick_pending (set_preempt_count c v) = tick_pending v.
Proof.
  intros _. revert w. induction os as [|o os IH]; intros w; simpl.
  - exists w. repeat split; try done. intros v Hv.
    exists (preempt_count v). by destruct v.
  - destruct (run_guard_op_frame o w) as (w1 & -> & Hs1 & Hc1 & Hl1 & Hv1).
    destruct (IH w1) as (w' & Hrun & Hs & Hl & Hv). simpl.
    exists w'. split; [done|]. split; [congruence|]. split; [congruence|].
    assert (vmm_scheduler_current_vcpu w1 = vmm_scheduler_current_vcpu w)
      as Hsame.
    { unfold vmm_scheduler_current_vcpu, vmm_manager_vcpu,
        vmm_manager_vcpu_count. by rewrite Hs1, Hl1. }
    intros i. split.
    + intros Hi. rewrite (proj1 (Hv i)) by by rewrite Hsame.
      by apply Hv1.
    + intros v Hv0. destruct (proj2 (Hv1 i) v Hv0) as [c1 Hc1'].
      destruct (proj2 (Hv i) _ Hc1') as (c & Hc' & _). exists c.
      rewrite Hc'. done.
Qed.

Lemma guard_frame_witness :
  ∃ w', run_guard_ops [Disable; Disable; Enable] world_guarded = Ok w'
    ∧ sched w' = sched world_guarded
    ∧ vcpus w' !! 1%nat = vcpus world_guarded !! 1%nat
    ∧ ∃ c, vcpus w' !! 0%nat
           = Some (mk_vcpu 0 (Some 0%nat) VMM_VCPU_STATE_RUNNING c 4 0
                     (Some 7%nat)).
Proof.
  destruct (guard_frame [Disable; Disable; Enable] world_guarded eq_refl)
    as (w' & Hrun & Hs & _ & Hv).
  exists w'. split; [exact Hrun|]. split; [exact Hs|]. split.
  - apply (proj1 (Hv 1%nat)). intros Hcur. vm_compute in Hcur.
    discriminate Hcur.
  - destruct (proj2 (Hv 0%nat) _ eq_refl) as (c & Hc & _).
    exists c. exact Hc.
Defined.

(** ** The quantum *)

Lemma ticks_run_down fuel (k : nat) : ∀ m s l (p : nat) v,
  vmm_manager_vcpu m (vcpu_current s) = Some p →
  m !! p = Some v →
  preempt_count v = 0 →
  tick_pending v = Z.of_nat k →
  ticks fuel k (mk_world m s l)
  = Ok (mk_world (alter (set_tick_pending 0) p m) s
          (l ++ concat (tick_calls (tick_func v) <$> reverse (seqZ 0 (Z.of_nat k))))).
Proof.
  induction k as [|k IH]; intros m s l p v Hcur Hv Hpc Htp.
  - simpl. rewrite app_nil_r.
    rewrite (alter_same_field _ _ _ v); [done|done|].
    destruct v. simpl in *. by subst.
  - cbn [ticks]. unfold vmm_scheduler_timer_event. simpl. rewrite Hcur. simpl.
    rewrite Hv. simpl.
    rewrite bool_decide_eq_true_2, bool_decide_eq_false_2 by lia.
    rewrite list_lookup_alter_eq, Hv. simpl.
    assert (∀ l',
      ticks fuel k
        (mk_world (alter (set_tick_pending (tick_pending v - 1)) p m) s l')
      = Ok (mk_world (alter (set_tick_pending 0) p m) s
              (l' ++ concat (tick_calls (tick_func v)
                               <$> reverse (seqZ 0 (Z.of_nat k)))))) as Hrest.
    { intros l'.
      rewrite (IH _ _ _ p (set_tick_pending (tick_pending v - 1) v));
        [|by unfold vmm_manager_vcpu, vmm_manager_vcpu_count in *;
             rewrite length_alter
         |by rewrite list_lookup_alter_eq, Hv|done|simpl; lia].
      by rewrite alter_alter_field by done. }
    rewrite seqZ_S, reverse_snoc. simpl.
    replace (tick_pending v - 1) with (0 + Z.of_nat k) in * by lia.
    unfold tick_calls at 2.
    destruct (tick_func v) as [f|]; simpl.
    + rewrite bool_decide_eq_true_2 by done. simpl. unfold emit. simpl.
      rewrite Hrest. by rewrite <-!app_assoc.
    + unfold emit. simpl. rewrite Hrest. by rewrite <-!app_assoc.
Qed.

(** X11 - A quantum runs down tick by tick.  With a current vcpu outside
    any preemption-disabled section and [k] ticks pending, the next [k]
    timer ticks return without a dispatch: the current vcpu stays
    current, only its [tick_pending] changes and ends at zero, and each
    tick calls the tick callback (when there is one) with the ticks left,
    [k - 1] down to 0, and re-arms the timer.  The tick after those is a
    run of the dispatcher. *)
Theorem quantum_runs_down (fuel k : nat) (w : world) (p : nat) v :
  vmm_manager_vcpu (vcpus w) (vcpu_current (sched w)) = Some p →
  vcpus w !! p = Some v →
  preempt_count v = 0 →
  tick_pending v = Z.of_nat k →
  ∃ w', ticks fuel k w = Ok w'
    ∧ sched w' = sched w
    ∧ vcpus w' = alter (set_tick_pending 0) p (vcpus w)
    ∧ calls w' = calls w ++
        concat (tick_calls (tick_func v) <$> reverse (seqZ 0 (Z.of_nat k)))
    ∧ vmm_scheduler_timer_event fuel w'
      = w1 ← vmm_scheduler_next fuel w';
        Ok (emit vmm_timer_event_restart w1).
Proof.
  intros Hcur Hv Hpc Htp. eexists. split.
  { replace w with (mk_world (vcpus w) (sched w) (calls w)) at 1
      by by destruct w.
    by apply (ticks_run_down fuel k _ _ _ p v). }
  split; [done|]. split; [done|]. split; [done|].
  unfold vmm_scheduler_timer_event. simpl.
  assert (vmm_manager_vcpu (alter (set_tick_pending 0) p (vcpus w))
            (vcpu_current (sched w)) = Some p) as ->.
  { unfold vmm_manager_vcpu, vmm_manager_vcpu_count in *.
    by rewrite length_alter. }
  simpl. rewrite list_lookup_alter_eq, Hv. simpl.
  by rewrite bool_decide_eq_true_2.
Qed.

Lemma quantum_runs_down_witness :
  ∃ w', ticks 2 1 world_ABC = Ok w'
    ∧ sched w' = sched world_ABC
    ∧ vcpus w' = alter (set_tick_pending 0) 0%nat (vcpus world_ABC)
    ∧ calls w' = [tick_func_call 7 0; vmm_timer_event_restart]
    ∧ vmm_scheduler_timer_event 2 w'
      = w1 ← vmm_scheduler_next 2 w'; Ok (emit vmm_timer_event_restart w1).
Proof.
  apply (quantum_runs_down 2 1 world_ABC 0 vcpu_A).
  - reflexivity.
  - reflexivity.
  - reflexivity.
  - reflexivity.
Defined.

(** ** Bounded waiting *)

Lemma bind_Ok_inv {A B} (r : result A) (f : A → result B) y :
  (x ← r; f x) = Ok y → ∃ x, r = Ok x ∧ f x = Ok y.
Proof. destruct r as [x| |]; simpl; [|done..]. intros Hf. by exists x. Qed.

Lemma dispatch_n_last fuel (k : nat) : ∀ w sel w',
  dispatch_n fuel (S k) w = Ok (sel, w') →
  last sel = Some (vcpu_current (sched w')).
Proof.
  induction k as [|k IH]; intros w sel w' Hrun;
    cbn [dispatch_n] in Hrun;
    apply bind_Ok_inv in Hrun as (w1 & _ & Hrun).
  - simpl in Hrun. by simplify_eq.
  - apply bind_Ok_inv in Hrun as ([sel1 w2] & Hrest & Hrun).
    simpl in Hrun. simplify_eq. apply IH in Hrest.
    destruct sel1 as [|x sel1]; [done|]. by rewrite last_cons_cons.
Qed.

(** X12 - Bounded waiting.  In a well-formed state, every vcpu of the
    rotation (every Ready vcpu, and the current one while Running)
    becomes the current vcpu after at least one and at most as many
    dispatches as the rotation has members. *)
Theorem rotation_member_is_dispatched (w : world) (fuel : nat) (i : Z) :
  world_ok w = true →
  0 < vmm_manager_vcpu_count (vcpus w) →
  vmm_manager_vcpu_count (vcpus w) - 1 ≤ Z.of_nat fuel →
  i ∈ runnable_ids w →
  ∃ (k : nat) sel w',
    (0 < k ≤ length (runnable_ids w))%nat
    ∧ dispatch_n fuel k w = Ok (sel, w')
    ∧ vcpu_current (sched w') = i.
Proof.
  intros Hok HN Hfuel Hin.
  set (n := vmm_manager_vcpu_count (vcpus w)) in *.
  set (L := filter (λ j, is_runnable w j = true)
              (probes n (vcpu_current (sched w) + 1) (Z.to_nat n))).
  assert (L ≡ₚ runnable_ids w) as Hperm
    by (unfold L, runnable_ids; by rewrite probes_Permutation).
  rewrite <-Hperm in Hin. apply list_elem_of_lookup in Hin as [j Hj].
  pose proof (lookup_lt_Some _ _ _ Hj) as Hlt.
  assert (rotation_state n (is_runnable w) w) as Hrot by done.
  destruct (dispatch_n_round n (is_runnable w) fuel HN Hfuel w (S j) Hrot)
    as (w' & Hrun & _); [done|].
  fold L in Hrun. exists (S j), (take (S j) L), w'.
  split; [rewrite <-Hperm; lia|]. split; [done|].
  apply dispatch_n_last in Hrun.
  rewrite last_lookup, length_take_le in Hrun by lia. simpl in Hrun.
  rewrite lookup_take_lt, Hj in Hrun by lia. by simplify_eq.
Qed.

Lemma rotation_member_is_dispatched_witness :
  ∃ (k : nat) sel w',
    (0 < k ≤ length (runnable_ids world_ABC))%nat
    ∧ dispatch_n 2 k world_ABC = Ok (sel, w')
    ∧ vcpu_current (sched w') = 2.
Proof.
  apply (rotation_member_is_dispatched world_ABC 2 2).
  - reflexivity.
  - reflexivity.
  - vm_compute. discriminate.
  - vm_compute. apply list_elem_of_In. simpl. tauto.
Defined.

(** ** The timer is re-armed when the dispatcher can return *)

Lemma vmm_scheduler_timer_event_returns (w : world) (fuel : nat) :
  world_ok w = true →
  0 < vmm_manager_vcpu_count (vcpus w) →
  vmm_manager_vcpu_count (vcpus w) - 1 ≤ Z.of_nat fuel →
  (0 ≤ vcpu_current (sched w) < vmm_manager_vcpu_count (vcpus w)
   ∨ ∃ i, is_ready (vcpus w) i = true) →
  ∃ w', vmm_scheduler_timer_event fuel w = Ok w'.
Proof.
  intros Hok HN Hfuel Hsome.
  destruct (vmm_scheduler_next_returns w fuel Hok HN Hfuel Hsome)
    as (d & w1 & _ & _ & _ & Hnext & _).
  unfold vmm_scheduler_timer_event. rewrite Hnext.
  destruct (vmm_manager_vcpu _ _) as [p|] eqn:Hcur; simpl; [|by eexists].
  assert (is_Some (vcpus w !! p)) as [v Hv].
  { unfold vmm_manager_vcpu in Hcur. case_bool_decide; simplify_eq.
    apply lookup_lt_is_Some_2. unfold vmm_manager_vcpu_count in *. lia. }
  rewrite Hv. simpl. case_bool_decide; [|by eexists].
  case_bool_decide; [by eexists|].
  rewrite list_lookup_alter_eq, Hv. simpl.
  destruct (tick_func v); [case_bool_decide|]; by eexists.
Qed.

(** X13 - The timer is re-armed whenever the dispatcher can return.  In a
    well-formed state with at least one vcpu, and with a current vcpu or
    some Ready vcpu, the timer tick returns, and among the calls it makes
    there is exactly one re-arming of the timer, the last of them. *)
Theorem tick_rearms_once (w : world) (fuel : nat) :
  world_ok w = true →
  0 < vmm_manager_vcpu_count (vcpus w) →
  vmm_manager_vcpu_count (vcpus w) - 1 ≤ Z.of_nat fuel →
  (0 ≤ vcpu_current (sched w) < vmm_manager_vcpu_count (vcpus w)
   ∨ ∃ i, is_ready (vcpus w) i = true) →
  ∃ w' l, vmm_scheduler_timer_event fuel w = Ok w'
    ∧ calls w' = calls w ++ l ++ [vmm_timer_event_restart]
    ∧ vmm_timer_event_restart ∉ l.
Proof.
  intros Hok HN Hfuel Hsome.
  destruct (vmm_scheduler_timer_event_returns w fuel Hok HN Hfuel Hsome)
    as [w' Htick].
  destruct (proj2 (proj2 (tick_accountant w fuel Hok)) w' Htick)
    as (l & Hcalls & Hl).
  by exists w', l.
Qed.

Lemma tick_rearms_once_witness :
  ∃ w' l, vmm_scheduler_timer_event 2 world_ABC = Ok w'
    ∧ calls w' = calls world_ABC ++ l ++ [vmm_timer_event_restart]
    ∧ vmm_timer_event_restart ∉ l.
Proof.
  apply (tick_rearms_once world_ABC 2).
  - reflexivity.
  - reflexivity.
  - vm_compute. discriminate.
  - left. split; [vm_compute; discriminate|reflexivity].
Defined.
